(** * Verification model of [spotify_data_query.py] (SpotifyDataQuery)

    A shallow embedding of the query-interpretation engine: the Python
    [re] patterns it uses (through a small backtracking matcher with
    Python's leftmost, greedy/lazy priority), the pandas event table as a
    list of rows, the temporal filter, the aggregators and the intent
    cascade of [analyze_query]. *)

From Stdlib Require Import String Ascii List ZArith QArith Bool Lia Sorted Permutation.
Import ListNotations.
Open Scope string_scope.
#[local] Set Warnings "-register-all".

(* ================================================================== *)
(** ** Python string helpers (ASCII) *)

Definition chr (n : nat) : ascii := ascii_of_nat n.
Definition ord (c : ascii) : nat := nat_of_ascii c.

Definition is_upper (c : ascii) : bool := (65 <=? ord c)%nat && (ord c <=? 90)%nat.
Definition is_lower (c : ascii) : bool := (97 <=? ord c)%nat && (ord c <=? 122)%nat.
Definition is_alpha (c : ascii) : bool := is_upper c || is_lower c.
Definition is_digit (c : ascii) : bool := (48 <=? ord c)%nat && (ord c <=? 57)%nat.
(** [\w] (ASCII): letters, digits, underscore. *)
Definition is_word (c : ascii) : bool := is_alpha c || is_digit c || (ord c =? 95)%nat.
(** [\s] and [str.split()] whitespace: the code points below 256 that
    [str.isspace] accepts, i.e. \t \n \v \f \r (9-13), the separators
    \x1c-\x1f (28-31), space (32), NEL (133) and NO-BREAK SPACE (160). *)
Definition is_space (c : ascii) : bool :=
  ((9 <=? ord c)%nat && (ord c <=? 13)%nat) || ((28 <=? ord c)%nat && (ord c <=? 32)%nat) ||
  (ord c =? 133)%nat || (ord c =? 160)%nat.

Definition lower_c (c : ascii) : ascii := if is_upper c then chr (ord c + 32) else c.
Definition upper_c (c : ascii) : ascii := if is_lower c then chr (ord c - 32) else c.

Definition lower (s : string) : string := string_of_list_ascii (map lower_c (list_ascii_of_string s)).
Definition upper (s : string) : string := string_of_list_ascii (map upper_c (list_ascii_of_string s)).

(** [str.capitalize]: first character upper-cased, the rest lower-cased. *)
Definition capitalize (s : string) : string :=
  match s with
  | EmptyString => EmptyString
  | String c r => String (upper_c c) (lower r)
  end.

(** [str.title]: a cased character following a cased one is lower-cased,
    any other cased character is upper-cased. *)
Fixpoint title_from (prev_cased : bool) (l : list ascii) : list ascii :=
  match l with
  | [] => []
  | c :: r => (if prev_cased then lower_c c else upper_c c) :: title_from (is_alpha c) r
  end.
Definition title (s : string) : string := string_of_list_ascii (title_from false (list_ascii_of_string s)).

(** [needle in hay]. *)
Fixpoint prefixb (p s : list ascii) : bool :=
  match p, s with
  | [], _ => true
  | a :: p', b :: s' => Ascii.eqb a b && prefixb p' s'
  | _ :: _, [] => false
  end.
Fixpoint containsl (p s : list ascii) : bool :=
  prefixb p s || match s with [] => false | _ :: s' => containsl p s' end.
Definition contains (needle hay : string) : bool :=
  containsl (list_ascii_of_string needle) (list_ascii_of_string hay).

(** [str.strip()]. *)
Fixpoint drop_space (l : list ascii) : list ascii :=
  match l with c :: r => if is_space c then drop_space r else l | [] => [] end.
Definition strip (s : string) : string :=
  string_of_list_ascii (rev (drop_space (rev (drop_space (list_ascii_of_string s))))).

(** [str.split()] (whitespace runs, no empty fields). *)
Fixpoint split_ws_aux (l : list ascii) (cur : list ascii) : list string :=
  match l with
  | [] => match cur with [] => [] | _ => [string_of_list_ascii (rev cur)] end
  | c :: r =>
      if is_space c then
        match cur with
        | [] => split_ws_aux r []
        | _ => string_of_list_ascii (rev cur) :: split_ws_aux r []
        end
      else split_ws_aux r (c :: cur)
  end.
Definition split_ws (s : string) : list string := split_ws_aux (list_ascii_of_string s) [].

(** [str.split(sep)] for a one-character separator (keeps empty fields). *)
Fixpoint split_on_aux (sep : ascii) (l : list ascii) (cur : list ascii) : list string :=
  match l with
  | [] => [string_of_list_ascii (rev cur)]
  | c :: r =>
      if Ascii.eqb c sep then string_of_list_ascii (rev cur) :: split_on_aux sep r []
      else split_on_aux sep r (c :: cur)
  end.
Definition split_on (sep : ascii) (s : string) : list string :=
  split_on_aux sep (list_ascii_of_string s) [].

(** [' '.join(ws)]. *)
Definition join (sep : string) (ws : list string) : string := String.concat sep ws.

(** [str(n)] for an integer. *)
Fixpoint digits_rev (fuel : nat) (n : Z) : list ascii :=
  match fuel with
  | O => []
  | S f => if (n <? 10)%Z then [chr (48 + Z.to_nat n)]
           else chr (48 + Z.to_nat (n mod 10)) :: digits_rev f (n / 10)
  end.
Definition str_Z (n : Z) : string :=
  if (n <? 0)%Z then String "-" (string_of_list_ascii (rev (digits_rev 64 (- n))))
  else string_of_list_ascii (rev (digits_rev 64 n)).

(** [int(s)] for a string of ASCII digits. *)
Definition int_of_digits (s : string) : Z :=
  fold_left (fun acc c => (10 * acc + Z.of_nat (ord c - 48))%Z) (list_ascii_of_string s) 0%Z.

(** Zero-padded two-digit rendering ([%02d]). *)
Definition pad2 (n : Z) : string := if (n <? 10)%Z then "0" ++ str_Z n else str_Z n.

(* ================================================================== *)
(** ** Python [re]: a backtracking matcher

    Patterns are written as syntax trees mirroring the source patterns.
    [mt] is a continuation-passing backtracking matcher that explores the
    alternatives in Python's priority order (left alternative first,
    greedy repetition tries one more iteration first, lazy one fewer),
    so the first successful path is the match [re.search] returns.  A
    repetition never takes an empty iteration (none of the repeated
    sub-patterns used here can match the empty string).  [fuel] bounds
    the recursion depth; [search] supplies a bound well above the depth
    any match of the pattern on the input needs. *)

Inductive regex : Type :=
| RChar (p : ascii -> bool)          (* one character satisfying [p] *)
| RSeq (a b : regex)
| RAlt (a b : regex)
| RStar (greedy : bool) (a : regex)  (* [a*] or [a*?] *)
| RGroup (n : nat) (a : regex)       (* capturing group number [n] *)
| REps
| REnd                               (* [$] *)
| RWordB.                            (* [\b] *)

Fixpoint re_size (r : regex) : nat :=
  match r with
  | RSeq a b | RAlt a b => S (re_size a + re_size b)
  | RStar _ a | RGroup _ a => S (re_size a)
  | _ => 1
  end.

(** Captures: group number and (start, end) offsets. *)
Definition caps := list (nat * (nat * nat)).

Definition input := list ascii.

Fixpoint set_cap (n : nat) (v : nat * nat) (cs : caps) : caps :=
  match cs with
  | [] => [(n, v)]
  | (m, w) :: r => if (m =? n)%nat then (n, v) :: r else (m, w) :: set_cap n v r
  end.

Definition at_word (s : input) (i : nat) : bool :=
  match nth_error s i with Some c => is_word c | None => false end.

Definition word_boundary (s : input) (i : nat) : bool :=
  let before := match i with O => false | S j => at_word s j end in
  xorb before (at_word s i).

(** [$] matches at the end, or before a final newline. *)
Definition at_end (s : input) (i : nat) : bool :=
  (i =? List.length s)%nat ||
  ((S i =? List.length s)%nat &&
   match nth_error s i with Some c => (ord c =? 10)%nat | None => false end).

Definition kont := nat -> caps -> option (nat * caps).

Fixpoint mt (fuel : nat) (s : input) (r : regex) (i : nat) (cs : caps) (k : kont)
  {struct fuel} : option (nat * caps) :=
  match fuel with
  | O => None
  | S f =>
    match r with
    | RChar p =>
        match nth_error s i with
        | Some c => if p c then k (S i) cs else None
        | None => None
        end
    | RSeq a b => mt f s a i cs (fun j cs' => mt f s b j cs' k)
    | RAlt a b =>
        match mt f s a i cs k with
        | Some x => Some x
        | None => mt f s b i cs k
        end
    | RStar true a =>
        match mt f s a i cs
                (fun j cs' => if (j =? i)%nat then None else mt f s (RStar true a) j cs' k) with
        | Some x => Some x
        | None => k i cs
        end
    | RStar false a =>
        match k i cs with
        | Some x => Some x
        | None =>
            mt f s a i cs
              (fun j cs' => if (j =? i)%nat then None else mt f s (RStar false a) j cs' k)
        end
    | RGroup n a => mt f s a i cs (fun j cs' => k j (set_cap n (i, j) cs'))
    | REps => k i cs
    | REnd => if at_end s i then k i cs else None
    | RWordB => if word_boundary s i then k i cs else None
    end
  end.

Definition re_fuel (s : input) (r : regex) : nat :=
  (S (List.length s) * S (re_size r) * 4)%nat.

(** Match starting exactly at [i]: the end offset and the captures. *)
Definition match_at (r : regex) (s : input) (i : nat) : option (nat * caps) :=
  mt (re_fuel s r) s r i [] (fun j cs => Some (j, cs)).

(** A successful search: start offset, end offset, captures. *)
Record re_match := { m_start : nat; m_end : nat; m_caps : caps }.

Fixpoint search_from (r : regex) (s : input) (i : nat) (n : nat) : option re_match :=
  match match_at r s i with
  | Some (j, cs) => Some {| m_start := i; m_end := j; m_caps := cs |}
  | None => match n with O => None | S n' => search_from r s (S i) n' end
  end.

(** [re.search(pattern, text)]. *)
Definition search (r : regex) (text : string) : option re_match :=
  let s := list_ascii_of_string text in
  search_from r s 0 (List.length s).

Definition substr (s : input) (a b : nat) : string :=
  string_of_list_ascii (firstn (b - a) (skipn a s)).

(** [match.group(n)] (the empty string for a group that did not take part). *)
Definition group (text : string) (m : re_match) (n : nat) : string :=
  let s := list_ascii_of_string text in
  match find (fun p => (fst p =? n)%nat) (m_caps m) with
  | Some (_, (a, b)) => substr s a b
  | None => ""
  end.

(** [re.findall(pattern, text)] for a pattern with one group: the group's
    text for every non-overlapping match, left to right. *)
Fixpoint findall_from (r : regex) (s : input) (i : nat) (n : nat) : list string :=
  match n with
  | O => []
  | S n' =>
      match search_from r s i (List.length s - i) with
      | None => []
      | Some m =>
          let g := match find (fun p => (fst p =? 1)%nat) (m_caps m) with
                   | Some (_, (a, b)) => substr s a b
                   | None => ""
                   end in
          g :: findall_from r s (if (m_end m =? m_start m)%nat then S (m_end m) else m_end m) n'
      end
  end.
Definition findall (r : regex) (text : string) : list string :=
  let s := list_ascii_of_string text in
  findall_from r s 0 (S (List.length s)).

(** Pattern building blocks. *)
Definition RPlus (g : bool) (a : regex) : regex := RSeq a (RStar g a).
Definition ROpt (a : regex) : regex := RAlt a REps.
Definition lit (c : ascii) : regex := RChar (fun x => Ascii.eqb x c).
(** a character under [re.IGNORECASE] *)
Definition lit_ci (c : ascii) : regex := RChar (fun x => Ascii.eqb (lower_c x) (lower_c c)).
Fixpoint str_re_l (l : list ascii) : regex :=
  match l with [] => REps | [c] => lit c | c :: r => RSeq (lit c) (str_re_l r) end.
Definition str_re (w : string) : regex := str_re_l (list_ascii_of_string w).
Fixpoint alts (l : list regex) : regex :=
  match l with [] => RChar (fun _ => false) | [a] => a | a :: r => RAlt a (alts r) end.
Fixpoint seqs (l : list regex) : regex :=
  match l with [] => REps | [a] => a | a :: r => RSeq a (seqs r) end.
Definition r_space : regex := RChar is_space.
Definition r_digit : regex := RChar is_digit.
Definition r_alpha : regex := RChar is_alpha.   (* [a-zA-Z] *)

(* ================================================================== *)
(** ** The patterns of [analyze_query] and [_filter_by_time] *)

(** [(?:w1|w2|...)] *)
Definition words_re (ws : list string) : regex := alts (map str_re ws).
(** [\s+], [\s*], [\d+] *)
Definition sp1 : regex := RPlus true r_space.
Definition sp0 : regex := RStar true r_space.
Definition digits1 : regex := RPlus true r_digit.
(** group 1 of [([a-zA-Z]+(?:\s+[a-zA-Z]+)* )], the name candidate *)
Definition name_grp : regex :=
  RGroup 1 (RSeq (RPlus true r_alpha) (RStar true (RSeq sp1 (RPlus true r_alpha)))).
(** [songs?] *)
Definition songs_re : regex := RSeq (str_re "song") (ROpt (lit "s")).
Definition fav_words : regex := words_re ["top"; "favorite"; "best"; "fave"].
Definition my_words : regex := words_re ["my"; "give me"; "show me"].

(** [r'([^\\n]+?)\\s+by\\s+([^\\n]+?)(?:[\\s\\n]|$)'] with [re.IGNORECASE].
    In the raw string each [\\] is a regex escape of a backslash: the class
    [[^\\n]] is "neither a backslash nor n", and [\\s+] is a backslash
    followed by one or more [s]. *)
Definition backslash : ascii := "092".
Definition not_bs_n (x : ascii) : bool :=
  negb (Ascii.eqb x backslash || Ascii.eqb (lower_c x) "n").
Definition bs_s_n (x : ascii) : bool :=
  Ascii.eqb x backslash || Ascii.eqb (lower_c x) "s" || Ascii.eqb (lower_c x) "n".
Definition song_by_artist_re : regex :=
  seqs [ RGroup 1 (RPlus false (RChar not_bs_n));
         lit backslash; RPlus true (lit_ci "s");
         lit_ci "b"; lit_ci "y";
         lit backslash; RPlus true (lit_ci "s");
         RGroup 2 (RPlus false (RChar not_bs_n));
         RAlt (RChar bs_s_n) REnd ].

Definition artist_song_patterns : list regex :=
  [ (* (?:top|favorite|best|fave)\s+\d+\s+(NAME)\s+songs? *)
    seqs [fav_words; sp1; digits1; sp1; name_grp; sp1; songs_re];
    (* (?:top|favorite|best|fave)\s+(NAME)\s+songs? *)
    seqs [fav_words; sp1; name_grp; sp1; songs_re];
    (* (?:my|give me|show me)\s+(?:my\s+)?(?:top|favorite|best|fave)?\s*\d+\s+(NAME)\s+songs? *)
    seqs [my_words; sp1; ROpt (RSeq (str_re "my") sp1); ROpt fav_words; sp0; digits1; sp1;
          name_grp; sp1; songs_re];
    (* (?:my|give me|show me)\s+(?:my\s+)?(?:top|favorite|best|fave)?\s*(NAME)\s+songs? *)
    seqs [my_words; sp1; ROpt (RSeq (str_re "my") sp1); ROpt fav_words; sp0;
          name_grp; sp1; songs_re];
    (* (NAME)\s+songs? *)
    seqs [name_grp; sp1; songs_re];
    (* songs?\s+by\s+(NAME) *)
    seqs [songs_re; sp1; str_re "by"; sp1; name_grp] ].

Definition first_words : regex := words_re ["first"; "earliest"].
Definition what_is_the : regex :=
  seqs [words_re ["what"; "which"]; sp1; words_re ["is"; "was"]; sp1; ROpt (RSeq (str_re "the") sp1)].

Definition first_song_patterns : list regex :=
  [ seqs [first_words; sp1; name_grp; sp1; str_re "song"];
    seqs [what_is_the; first_words; sp1; name_grp; sp1; str_re "song"];
    seqs [first_words; sp1; str_re "song"; sp1; words_re ["by"; "from"]; sp1; name_grp] ].

Definition first_genre_patterns : list regex :=
  [ seqs [first_words; sp1; name_grp; sp1; str_re "song"];
    seqs [what_is_the; first_words; sp1; name_grp; sp1; str_re "song"] ].

Definition last_words : regex := words_re ["last"; "latest"; "most recent"].

Definition last_song_patterns : list regex :=
  [ seqs [last_words; sp1; name_grp; sp1; str_re "song"];
    seqs [what_is_the; last_words; sp1; name_grp; sp1; str_re "song"];
    seqs [last_words; sp1; str_re "song"; sp1; words_re ["by"; "from"]; sp1; name_grp];
    (* (?:and\s+)?(?:my\s+)?(?:last|latest)\s+(NAME)\s+song *)
    seqs [ROpt (RSeq (str_re "and") sp1); ROpt (RSeq (str_re "my") sp1);
          words_re ["last"; "latest"]; sp1; name_grp; sp1; str_re "song"] ].

Definition last_genre_patterns : list regex :=
  [ seqs [last_words; sp1; name_grp; sp1; str_re "song"];
    seqs [what_is_the; last_words; sp1; name_grp; sp1; str_re "song"] ].

(** [\d{1,2}] as group 1 *)
Definition day_grp : regex := RGroup 1 (RSeq r_digit (ROpt r_digit)).
Definition ord_suffix : regex := words_re ["st"; "nd"; "rd"; "th"].

Definition day_patterns : list regex :=
  [ (* \b(\d{1,2})(?:st|nd|rd|th)\s+of\b *)
    seqs [RWordB; day_grp; ord_suffix; sp1; str_re "of"; RWordB];
    (* \b(\d{1,2})(?:st|nd|rd|th)?\b *)
    seqs [RWordB; day_grp; ROpt ord_suffix; RWordB];
    (* \b(\d{1,2})\s*,?\s*\d{4} *)
    seqs [RWordB; day_grp; sp0; ROpt (lit ","); sp0; r_digit; r_digit; r_digit; r_digit] ].

(** [Series.str.contains(pat, case=False)] where [pat] is a name candidate
    or one of its variations: such patterns consist of letters, whitespace,
    and the [.] of the initial variation, the only metacharacter that can
    occur; [.] matches any character but a newline. *)
Definition pat_re (p : string) : regex :=
  seqs (map (fun c => if Ascii.eqb c "." then RChar (fun x => negb (ord x =? 10)%nat)
                      else lit_ci c) (list_ascii_of_string p)).
Definition str_contains_ci (pat hay : string) : bool :=
  match search (pat_re pat) hay with Some _ => true | None => false end.

(** The character tests of a [pat_re] pattern, and whether they hold of
    consecutive characters of [s] from offset [i]. *)
Definition pat_pred (c : ascii) : ascii -> bool :=
  if Ascii.eqb c "." then (fun x => negb (ord x =? 10)%nat)
  else (fun x => Ascii.eqb (lower_c x) (lower_c c)).
Fixpoint chars_at (ps : list (ascii -> bool)) (s : input) (i : nat) : bool :=
  match ps with
  | [] => true
  | p :: ps' => match nth_error s i with
                | Some c => p c && chars_at ps' s (S i)
                | None => false
                end
  end.

(* ================================================================== *)
(** ** The event table ([self.df])

    One row per listen event.  [ts] is the parsed timestamp (UTC);
    the columns [date], [year] and [hours_played] are computed from it
    at load time ([__init__]).

    The [genres] cell is [Some s] when the enrichment wrote it (a
    comma-joined list of labels, or ["Unknown"] when the artist has none)
    and [None] when it holds NaN: the enrichment leaves rows whose artist
    is null untouched, and a table concatenated with rows of a table built
    without genres gets NaN there.  Whether the column exists at all (it
    does not when the table was built without the genre enrichment) is a
    property of the table, passed as [genres_col] to the routines that
    test ["genres" in data.columns].  Track and artist are strings: rows
    whose track or artist name is null are outside this model. *)

Record timestamp := { yr : Z; mo : Z; dy : Z; hh : Z; mi : Z; ss : Z }.

Record event := {
  ts : timestamp;
  track : string;      (* master_metadata_track_name *)
  artist : string;     (* master_metadata_album_artist_name *)
  genres : option string;
  ms_played : Z }.

Definition store := list event.

(** Days since 1970-01-01 of a proleptic Gregorian date. *)
Definition days_from_civil (y m d : Z) : Z :=
  let y' := if (m <=? 2)%Z then (y - 1)%Z else y in
  let era := (y' / 400)%Z in
  let yoe := (y' - era * 400)%Z in
  let doy := ((153 * (if (2 <? m)%Z then m - 3 else m + 9) + 2) / 5 + d - 1)%Z in
  let doe := (yoe * 365 + yoe / 4 - yoe / 100 + doy)%Z in
  (era * 146097 + doe - 719468)%Z.

Definition ts_key (t : timestamp) : Z :=
  (days_from_civil (yr t) (mo t) (dy t) * 86400 + hh t * 3600 + mi t * 60 + ss t)%Z.

(** [df['date']]: the calendar date, as its day number. *)
Definition date (e : event) : Z := days_from_civil (yr (ts e)) (mo (ts e)) (dy (ts e)).
(** [df['year']] *)
Definition year (e : event) : Z := yr (ts e).
(** [df['hours_played'] = ms_played / (1000 * 60 * 60)] *)
Definition hours_played (e : event) : Q := (ms_played e # 3600000)%Q.

Definition month_names : list string :=
  ["january"; "february"; "march"; "april"; "may"; "june"; "july"; "august";
   "september"; "october"; "november"; "december"].

Definition day_names : list string :=
  ["Monday"; "Tuesday"; "Wednesday"; "Thursday"; "Friday"; "Saturday"; "Sunday"].

(** [ts.dt.day_name()] (1970-01-01 was a Thursday). *)
Definition day_name (e : event) : string :=
  nth (Z.to_nat ((date e + 3) mod 7)) day_names "".

(** [ts.strftime('%B %d, %Y')], [ts.strftime('%H:%M')], [ts.isoformat()]. *)
Definition fmt_BdY (t : timestamp) : string :=
  title (nth (Z.to_nat (mo t - 1)) month_names "") ++ " " ++ pad2 (dy t) ++ ", " ++ str_Z (yr t).
Definition fmt_HM (t : timestamp) : string := pad2 (hh t) ++ ":" ++ pad2 (mi t).
Definition isoformat (t : timestamp) : string :=
  str_Z (yr t) ++ "-" ++ pad2 (mo t) ++ "-" ++ pad2 (dy t) ++ "T" ++
  pad2 (hh t) ++ ":" ++ pad2 (mi t) ++ ":" ++ pad2 (ss t) ++ "+00:00".
(** [str(date)] *)
Definition date_str (e : event) : string :=
  str_Z (yr (ts e)) ++ "-" ++ pad2 (mo (ts e)) ++ "-" ++ pad2 (dy (ts e)).

(* ================================================================== *)
(** ** Result envelopes *)

Inductive json : Type :=
| JStr (s : string)
| JInt (z : Z)
| JNum (q : Q)
| JObj (kv : list (string * json))
| JList (l : list json).

Record envelope := {
  e_query : string;
  analysis_type : string;
  data : list (string * json);
  period_info : option string }.


Definition lookup (k : string) (d : list (string * json)) : option json :=
  option_map snd (find (fun p => String.eqb (fst p) k) d).

Definition err_env (q at_ msg p : string) : envelope :=
  {| e_query := q; analysis_type := at_; data := [("error", JStr msg)]; period_info := Some p |}.

(* ================================================================== *)
(** ** pandas helpers *)

(** [Series.value_counts()]: each distinct value with its number of
    occurrences, by decreasing count; equal counts keep the order in
    which the values first occur. *)
Fixpoint tally (l : list string) (acc : list (string * Z)) : list (string * Z) :=
  match l with
  | [] => acc
  | x :: r =>
      let acc' :=
        if existsb (fun p => String.eqb (fst p) x) acc
        then map (fun p => if String.eqb (fst p) x then (fst p, (snd p + 1)%Z) else p) acc
        else app acc [(x, 1%Z)] in
      tally r acc'
  end.

Fixpoint insert_desc (p : string * Z) (l : list (string * Z)) : list (string * Z) :=
  match l with
  | [] => [p]
  | q :: r => if (snd q <? snd p)%Z then p :: q :: r else q :: insert_desc p r
  end.

Definition sort_desc (l : list (string * Z)) : list (string * Z) :=
  fold_left (fun acc p => insert_desc p acc) l [].

Definition value_counts (l : list string) : list (string * Z) := sort_desc (tally l []).

(** The count a tally records for [k] (0 when [k] is not a key). *)
Definition tally_count (k : string) (acc : list (string * Z)) : Z :=
  match find (fun p => String.eqb (fst p) k) acc with Some p => snd p | None => 0%Z end.

(** [.head(n).to_dict()] of a value count. *)
Definition counts_dict (n : nat) (vc : list (string * Z)) : json :=
  JObj (map (fun p => (fst p, JInt (snd p))) (firstn n vc)).

(** [.nunique()] *)
Definition nunique (l : list string) : Z := Z.of_nat (List.length (tally l [])).

Definition sumQ (l : list Q) : Q := fold_right Qplus 0%Q l.

(** [groupby(key).size().idxmax()]: groups in ascending key order, the
    first group of maximal size. *)
Fixpoint insert_by {A} (lt : A -> A -> bool) (x : A) (l : list A) : list A :=
  match l with
  | [] => [x]
  | y :: r => if lt x y then x :: y :: r else y :: insert_by lt x r
  end.
Definition sort_by {A} (lt : A -> A -> bool) (l : list A) : list A :=
  fold_right (insert_by lt) [] l.
Definition dedup {A} (eqb : A -> A -> bool) (l : list A) : list A :=
  fold_left (fun acc x => if existsb (eqb x) acc then acc else app acc [x]) l [].
Definition idxmax {A} (eqb : A -> A -> bool) (lt : A -> A -> bool) (l : list A) : option A :=
  let ks := sort_by lt (dedup eqb l) in
  let cnt k := List.length (filter (eqb k) l) in
  fold_left (fun best k => match best with
                           | None => Some k
                           | Some b => if (cnt b <? cnt k)%nat then Some k else Some b
                           end) ks None.

(** [df.loc[df['ts'].idxmin()]] / [idxmax()]: the first row with the
    smallest / largest timestamp. *)
Fixpoint first_min (l : list event) : option event :=
  match l with
  | [] => None
  | e :: r => match first_min r with
              | Some e' => if (ts_key (ts e') <? ts_key (ts e))%Z then Some e' else Some e
              | None => Some e
              end
  end.
Fixpoint first_max (l : list event) : option event :=
  match l with
  | [] => None
  | e :: r => match first_max r with
              | Some e' => if (ts_key (ts e) <? ts_key (ts e'))%Z then Some e' else Some e
              | None => Some e
              end
  end.

(* ================================================================== *)
(** ** Aggregators

    Each takes the time-filtered view ([filtered_data]) and the period
    label.  [None] stands for a Python exception escaping the routine. *)

(** The genre loops
    [for genres_str in data["genres"]: if genres_str and genres_str != "Unknown":
     all_genres.extend([g.strip() for g in genres_str.split(",")])].
    A string cell that is empty or exactly ["Unknown"] is skipped, any
    other is split on commas and each part stripped.  A NaN cell is truthy
    and differs from ["Unknown"], so [nan.split] raises: [cell_labels]
    is [None] there, and the loop raises at the first such cell. *)
Definition has_genre_info (g : string) : bool :=
  negb (String.eqb g "") && negb (String.eqb g "Unknown").
Definition cell_labels (c : option string) : option (list string) :=
  match c with
  | None => None
  | Some g => Some (if has_genre_info g then map strip (split_on "," g) else [])
  end.
Fixpoint gather_genres (v : list event) : option (list string) :=
  match v with
  | [] => Some []
  | e :: r =>
    match cell_labels (genres e) with
    | None => None
    | Some gs => match gather_genres r with Some rest => Some (app gs rest) | None => None end
    end
  end.

(** The labels the string cells of a view contribute, and whether some
    cell is NaN (used to state results about [gather_genres]). *)
Definition genre_labels (v : list event) : list string :=
  flat_map (fun e => match genres e with
                     | Some g => if has_genre_info g then map strip (split_on "," g) else []
                     | None => []
                     end) v.
Definition genres_nan (v : list event) : bool :=
  existsb (fun e => match genres e with None => true | Some _ => false end) v.

(** [_extract_top_genres(data, limit)]; [genres_col]: the table has a
    ["genres"] column. *)
Definition extract_top_genres (genres_col : bool) (v : list event) (limit : nat) : option json :=
  match v with
  | [] => Some (JObj [])
  | _ =>
    if negb genres_col then Some (JObj []) else
    match gather_genres v with
    | None => None
    | Some [] => Some (JObj [])
    | Some gs => Some (counts_dict limit (value_counts gs))
    end
  end.

Definition get_favorite_song (v : list event) (p : string) : option envelope :=
  let q := "favorite song in " ++ p in
  match v with
  | [] => Some (err_env q "favorite_song" ("No data found for " ++ p) p)
  | _ =>
    match value_counts (map track v) with
    | [] => None
    | (top_song, play_count) :: _ =>
      match filter (fun e => String.eqb (track e) top_song) v with
      | [] => None
      | e :: _ =>
        Some {| e_query := q; analysis_type := "favorite_song";
                data := [("top_songs", JObj [(top_song, JInt play_count)]);
                         ("artist", JStr (artist e)); ("period", JStr p)];
                period_info := Some p |}
      end
    end
  end.

Definition get_favorite_artist (v : list event) (p : string) : option envelope :=
  let q := "favorite artist in " ++ p in
  match v with
  | [] => Some (err_env q "favorite_artist" ("No data found for " ++ p) p)
  | _ =>
    match value_counts (map artist v) with
    | [] => None
    | (top_artist, play_count) :: _ =>
      Some {| e_query := q; analysis_type := "favorite_artist";
              data := [("top_artists", JObj [(top_artist, JInt play_count)]); ("period", JStr p)];
              period_info := Some p |}
    end
  end.

Definition get_favorite_genre (genres_col : bool) (v : list event) (p : string) : option envelope :=
  let q := "favorite genre in " ++ p in
  match v with
  | [] => Some (err_env q "favorite_genre" ("No data found for " ++ p) p)
  | _ =>
    if negb genres_col then Some (err_env q "favorite_genre" "No genre data available" p) else
    match gather_genres v with
    | None => None
    | Some [] => Some (err_env q "favorite_genre" ("No genre data found for " ++ p) p)
    | Some gs =>
      match value_counts gs with
      | [] => None
      | ((top_genre, track_count) :: _) as vc =>
        Some {| e_query := q; analysis_type := "favorite_genre";
                data := [("top_genre", JStr top_genre); ("track_count", JInt track_count);
                         ("top_genres", counts_dict 5 vc); ("period", JStr p)];
                period_info := Some p |}
      end
    end
  end.

(** [_get_multiple_favorites(filtered_data, period_info, requested_types)];
    the three sub-results are computed in turn into [results]. *)
Definition multi_song (v : list event) : option (list (string * json)) :=
  match value_counts (map track v) with
  | [] => None
  | (top_song, song_count) :: _ =>
    match filter (fun e => String.eqb (track e) top_song) v with
    | [] => None
    | e :: _ => Some [("top_song", JObj [("name", JStr top_song); ("artist", JStr (artist e));
                                        ("plays", JInt song_count)])]
    end
  end.
Definition multi_artist (v : list event) : option (list (string * json)) :=
  match value_counts (map artist v) with
  | [] => None
  | (top_artist, artist_count) :: _ =>
    Some [("top_artist", JObj [("name", JStr top_artist); ("plays", JInt artist_count)])]
  end.
Definition multi_genre (v : list event) : option (list (string * json)) :=
  match gather_genres v with
  | None => None
  | Some [] => Some []
  | Some gs => match value_counts gs with
          | [] => None
          | (top_genre, genre_count) :: _ =>
            Some [("top_genre", JObj [("name", JStr top_genre); ("tracks", JInt genre_count)])]
          end
  end.

Definition get_multiple_favorites (genres_col : bool) (v : list event) (p : string)
  (requested : list string)
  : option envelope :=
  let q := "multiple favorites in " ++ p in
  let wants t := existsb (String.eqb t) requested in
  match v with
  | [] => Some (err_env q "multiple_favorites" ("No data found for " ++ p) p)
  | _ =>
    match (if wants "song" then multi_song v else Some []),
          (if wants "artist" then multi_artist v else Some []),
          (if wants "genre" && genres_col then multi_genre v else Some []) with
    | Some r1, Some r2, Some r3 =>
      Some {| e_query := q; analysis_type := "multiple_favorites";
              data := app r1 (app r2 r3); period_info := Some p |}
    | _, _, _ => None
    end
  end.

(** [_generate_artist_name_variations(artist_name)]; [None] when
    [artist_name] has no word ([words[0]] raises). *)
Definition generate_artist_name_variations (artist_name : string) : option (list string) :=
  match split_ws artist_name with
  | [] => None
  | [word] => Some [capitalize word; upper word; "The " ++ capitalize word]
  | w0 :: rest =>
    let words := w0 :: rest in
    match w0 with
    | EmptyString => None
    | String c0 _ =>
      let first_initial := String (upper_c c0) "." in
      Some [ first_initial ++ " " ++ join " " rest;
             join " " (map capitalize words);
             join " " (map upper words);
             "The " ++ title (join " " words) ]
    end
  end.

(** The rows of the view whose artist contains [artist_name]
    ([str.contains(..., case=False)]); when there are none, the rows of
    the first variation that selects some (none if no variation does). *)
Definition rows_with_artist (pat : string) (v : list event) : list event :=
  filter (fun e => str_contains_ci pat (artist e)) v.

Definition select_artist_rows (v : list event) (artist_name : string) : option (list event) :=
  match rows_with_artist artist_name v with
  | [] =>
    match generate_artist_name_variations artist_name with
    | None => None
    | Some vars =>
      Some (match find (fun var => match rows_with_artist var v with [] => false | _ => true end) vars with
            | Some var => rows_with_artist var v
            | None => []
            end)
    end
  | d => Some d
  end.

Definition song_row_data (e : event) : list (string * json) :=
  [("song", JStr (track e)); ("date", JStr (fmt_BdY (ts e))); ("time", JStr (fmt_HM (ts e)));
   ("timestamp", JStr (isoformat (ts e)))].

(** [_get_first_song_by_artist] and [_get_last_song_by_artist]. *)
Definition get_edge_song_by_artist (first : bool) (v : list event) (p artist_name : string)
  : option envelope :=
  let q := (if first then "first " else "last ") ++ artist_name ++ " song" in
  let at_ := if first then "first_song" else "last_song" in
  match select_artist_rows v artist_name with
  | None => None
  | Some [] => Some (err_env q at_ ("No songs found for " ++ artist_name) p)
  | Some ((e0 :: _) as ad) =>
    match (if first then first_min ad else first_max ad) with
    | None => None
    | Some e =>
      Some {| e_query := q; analysis_type := at_;
              data := ("artist", JStr (artist e0)) :: song_row_data e;
              period_info := Some p |}
    end
  end.
Definition get_first_song_by_artist := get_edge_song_by_artist true.
Definition get_last_song_by_artist := get_edge_song_by_artist false.

(** [genres.str.contains(genre_name, case=False, na=False)]: a NaN cell
    does not match. *)
Definition genre_contains (genre_name : string) (e : event) : bool :=
  match genres e with Some g => str_contains_ci genre_name g | None => false end.

(** [_get_first_song_by_genre] and [_get_last_song_by_genre]. *)
Definition get_edge_song_by_genre (genres_col first : bool) (v : list event) (p genre_name : string)
  : option envelope :=
  let q := (if first then "first " else "last ") ++ genre_name ++ " song" in
  let at_ := if first then "first_song" else "last_song" in
  if negb genres_col then Some (err_env q at_ "No genre data available" p) else
  match filter (genre_contains genre_name) v with
  | [] => Some (err_env q at_ ("No songs found for genre " ++ genre_name) p)
  | gd =>
    match (if first then first_min gd else first_max gd) with
    | None => None
    | Some e =>
      Some {| e_query := q; analysis_type := at_;
              data := [("genre", JStr genre_name); ("song", JStr (track e));
                       ("artist", JStr (artist e)); ("date", JStr (fmt_BdY (ts e)));
                       ("time", JStr (fmt_HM (ts e))); ("timestamp", JStr (isoformat (ts e)))];
              period_info := Some p |}
    end
  end.
Definition get_first_song_by_genre (genres_col : bool) := get_edge_song_by_genre genres_col true.
Definition get_last_song_by_genre (genres_col : bool) := get_edge_song_by_genre genres_col false.

(** [_get_artist_songs] *)
Definition get_artist_songs (v : list event) (p artist_name : string) : option envelope :=
  let q := artist_name ++ " songs in " ++ p in
  match select_artist_rows v artist_name with
  | None => None
  | Some [] => Some (err_env q "artist_songs" ("No songs found for " ++ artist_name ++ " in " ++ p) p)
  | Some ((e0 :: _) as ad) =>
    Some {| e_query := q; analysis_type := "artist_songs";
            data := [("artist", JStr (artist e0));
                     ("top_songs", counts_dict 10 (value_counts (map track ad)));
                     ("total_plays", JInt (Z.of_nat (List.length ad)));
                     ("total_hours", JNum (sumQ (map hours_played ad)))];
            period_info := Some p |}
  end.

(** [groupby(ts.dt.hour).size().idxmax()] and
    [groupby(ts.dt.day_name()).size().idxmax()], with the fallbacks the
    source gives for an empty view. *)
Definition peak_hour (v : list event) : Z :=
  match idxmax Z.eqb Z.ltb (map (fun e => hh (ts e)) v) with Some h => h | None => 0%Z end.
Definition peak_day (v : list event) : string :=
  match idxmax String.eqb String.ltb (map day_name v) with Some d => d | None => "Unknown" end.

Definition total_hours (v : list event) : Q := sumQ (map hours_played v).

(** [_get_daily_listening]; [sort_values('ts')] is taken as a stable sort. *)
Definition get_daily_listening (genres_col : bool) (v : list event) (p : string) : option envelope :=
  match v with
  | [] => Some (err_env ("listening on " ++ p) "daily_listening"
                        ("No listening data found for " ++ p) p)
  | _ =>
    if (List.length (dedup Z.eqb (map date v)) =? 1)%nat then
      let daily := sort_by (fun a b => (ts_key (ts a) <? ts_key (ts b))%Z) v in
      let tracks_list := map (fun e => JObj [("time", JStr (fmt_HM (ts e)));
                                             ("song", JStr (track e));
                                             ("artist", JStr (artist e))]) daily in
      match value_counts (map artist v), value_counts (map track v) with
      | (top_artist, _) :: _, (top_song, _) :: _ =>
        Some {| e_query := "listening on " ++ p; analysis_type := "daily_listening";
                data := [("date", JStr p); ("total_tracks", JInt (Z.of_nat (List.length v)));
                         ("total_hours", JNum (total_hours v));
                         ("tracks_chronological", JList (firstn 20 tracks_list));
                         ("top_artist_that_day", JStr top_artist);
                         ("most_played_song", JStr top_song)];
                period_info := Some p |}
      | _, _ => None
      end
    else
      match extract_top_genres genres_col v 5 with
      | None => None
      | Some top_genres =>
      Some {| e_query := "listening in " ++ p; analysis_type := "period_summary";
              data := [("stats", JObj [("total_plays", JInt (Z.of_nat (List.length v)));
                                       ("total_hours", JNum (total_hours v));
                                       ("unique_artists", JInt (nunique (map artist v)));
                                       ("unique_songs", JInt (nunique (map track v)))]);
                       ("top_artists", counts_dict 5 (value_counts (map artist v)));
                       ("top_songs", counts_dict 5 (value_counts (map track v)));
                       ("top_genres", top_genres);
                       ("time_patterns", JObj [("peak_listening_hour", JInt (peak_hour v));
                                               ("peak_listening_day", JStr (peak_day v))])];
              period_info := Some p |}
      end
  end.

(** The closing block of [analyze_query]: the general statistics over the
    view, or the no-data error. *)
Fixpoint min_date_row (l : list event) : option event :=
  match l with
  | [] => None
  | e :: r => match min_date_row r with
              | Some e' => if (date e' <? date e)%Z then Some e' else Some e
              | None => Some e
              end
  end.
Fixpoint max_date_row (l : list event) : option event :=
  match l with
  | [] => None
  | e :: r => match max_date_row r with
              | Some e' => if (date e <? date e')%Z then Some e' else Some e
              | None => Some e
              end
  end.

(** [hours_played], [total_hours] and [avg_daily_hours] are exact
    rationals here; the source computes them in float64, so the model's
    values are the exact counterparts of the rounded ones. *)
Definition avg_daily_hours (v : list event) : Q :=
  let ds := dedup Z.eqb (map date v) in
  (sumQ (map (fun d => total_hours (filter (fun e => (date e =? d)%Z) v)) ds)
   / inject_Z (Z.of_nat (List.length ds)))%Q.

Definition general_result (genres_col : bool) (query : string) (v : list event) (p : string)
  : option envelope :=
  match v with
  | [] => Some (err_env query "general" ("No data found for " ++ p) p)
  | _ =>
    match min_date_row v, max_date_row v, extract_top_genres genres_col v 5 with
    | Some d0, Some d1, Some top_genres =>
      Some {| e_query := query; analysis_type := "general";
              data := [("stats", JObj [("total_plays", JInt (Z.of_nat (List.length v)));
                                       ("total_hours", JNum (total_hours v));
                                       ("unique_artists", JInt (nunique (map artist v)));
                                       ("unique_songs", JInt (nunique (map track v)));
                                       ("date_range", JStr (date_str d0 ++ " to " ++ date_str d1));
                                       ("avg_daily_hours", JNum (avg_daily_hours v));
                                       ("most_active_day", JStr (peak_day v));
                                       ("most_active_hour", JInt (peak_hour v))]);
                       ("top_artists", counts_dict 10 (value_counts (map artist v)));
                       ("top_songs", counts_dict 10 (value_counts (map track v)));
                       ("top_genres", top_genres);
                       ("time_patterns", JObj [("peak_listening_hour", JInt (peak_hour v));
                                               ("peak_listening_day", JStr (peak_day v))]);
                       ("total_tracks_in_period", JInt (Z.of_nat (List.length v)))];
              period_info := Some p |}
    | _, _, _ => None
    end
  end.

(* ================================================================== *)
(** ** The query object: reads of [self.df] in a state and error monad

    A method of [SpotifyDataQuery] receives the object's table as state
    and hands back the state it leaves; [None] is an escaping exception. *)

Definition M (A : Type) : Type := store -> option (A * store).
Definition ret {A} (a : A) : M A := fun st => Some (a, st).
Definition bind {A B} (m : M A) (k : A -> M B) : M B :=
  fun st => match m st with Some (a, st') => k a st' | None => None end.
(** [self.df] *)
Definition get_df : M store := fun st => Some (st, st).
(** a pure computation that may raise *)
Definition lift {A} (o : option A) : M A :=
  fun st => match o with Some a => Some (a, st) | None => None end.

Notation "x <- m ;; k" := (bind m (fun x => k)) (at level 61, m at next level, right associativity).

Definition dq : string := String "034"%char EmptyString.

(** [_query_song_by_artist(song, artist)]: exact, case-insensitive lookup
    over the whole table. *)
Definition query_song_by_artist (song artist_ : string) : M envelope :=
  df <- get_df ;;
  let q := song ++ " by " ++ artist_ in
  let matches := filter (fun e => String.eqb (lower (track e)) (lower song) &&
                                  String.eqb (lower (artist e)) (lower artist_)) df in
  match matches with
  | [] =>
    let song_matches := filter (fun e => String.eqb (lower (track e)) (lower song)) df in
    let artist_matches := filter (fun e => String.eqb (lower (artist e)) (lower artist_)) df in
    let error_msg :=
      match song_matches, artist_matches with
      | s0 :: _, _ => "You have listened to " ++ dq ++ song ++ dq ++ " but by " ++ artist s0 ++ ", not " ++ artist_
      | [], _ :: _ => "You listen to " ++ artist_ ++ ", but not the song " ++ dq ++ song ++ dq
      | [], [] => "No data found for " ++ dq ++ song ++ dq ++ " by " ++ artist_
      end in
    ret {| e_query := q; analysis_type := "song_by_artist"; data := [("error", JStr error_msg)];
           period_info := None |}
  | m0 :: _ =>
    match first_min matches, first_max matches with
    | Some f, Some l =>
      let fy := yr (ts f) in
      let ly := yr (ts l) in
      ret {| e_query := q; analysis_type := "song_by_artist";
             data := [("song", JStr (track m0)); ("artist", JStr (artist m0));
                      ("first_listen_date", JStr (fmt_BdY (ts f)));
                      ("first_listen_time", JStr (fmt_HM (ts f)));
                      ("last_listen_date", JStr (fmt_BdY (ts l)));
                      ("total_plays", JInt (Z.of_nat (List.length matches)));
                      ("years_active", JStr (if (fy =? ly)%Z then str_Z fy
                                             else str_Z fy ++ "-" ++ str_Z ly))];
             period_info := Some ("First played: " ++ fmt_BdY (ts f)) |}
    | _, _ => lift None
    end
  end.

(** Calendar validity checked by [pd.Timestamp(year, month, day)]. *)
Definition is_leap (y : Z) : bool :=
  ((y mod 4 =? 0) && negb (y mod 100 =? 0) || (y mod 400 =? 0))%Z.
Definition days_in_month (y m : Z) : Z :=
  if (m =? 2)%Z then (if is_leap y then 29 else 28)%Z
  else if existsb (Z.eqb m) [4; 6; 9; 11]%Z then 30%Z else 31%Z.
Definition valid_date (y m d : Z) : bool :=
  ((1 <=? m) && (m <=? 12) && (1 <=? d) && (d <=? days_in_month y m))%Z.

(** Month lookup: the first month (in calendar order) whose name occurs
    in the lower-cased query. *)
Fixpoint find_month (ql : string) (names : list string) (n : Z) : option Z :=
  match names with
  | [] => None
  | nm :: r => if contains nm ql then Some n else find_month ql r (n + 1)
  end.

(** Day lookup: the patterns in order; for each, the first [findall]
    result in [1, 31]. *)
Fixpoint find_day (query : string) (pats : list regex) : option Z :=
  match pats with
  | [] => None
  | pat :: r =>
    match find (fun s => (1 <=? int_of_digits s) && (int_of_digits s <=? 31))%Z (findall pat query) with
    | Some s => Some (int_of_digits s)
    | None => find_day query r
    end
  end.

Definition month_title (m : Z) : string := title (nth (Z.to_nat (m - 1)) month_names "").

(** [_filter_by_time(query)]: the view and the period label. *)
Definition filter_by_time (query : string) : M (list event * string) :=
  df <- get_df ;;
  let query_lower := lower query in
  let years_in_data := sort_by Z.ltb (dedup Z.eqb (map year df)) in
  let detected_year := find (fun y => contains (str_Z y) query) years_in_data in
  let detected_month := find_month query_lower month_names 1 in
  let detected_day := find_day query day_patterns in
  let truthy o := match o with Some z => negb (z =? 0)%Z | None => false end in
  let y := match detected_year with Some z => z | None => 0%Z end in
  let m := match detected_month with Some z => z | None => 0%Z end in
  let d := match detected_day with Some z => z | None => 0%Z end in
  if truthy detected_year && truthy detected_month && truthy detected_day then
    if valid_date y m d then
      ret (filter (fun e => (date e =? days_from_civil y m d)%Z) df,
           month_title m ++ " " ++ str_Z d ++ ", " ++ str_Z y)
    else lift None
  else if truthy detected_year && truthy detected_month then
    ret (filter (fun e => (year e =? y)%Z && (mo (ts e) =? m)%Z) df,
         month_title m ++ " " ++ str_Z y)
  else if truthy detected_year then
    ret (filter (fun e => (year e =? y)%Z) df, "Year " ++ str_Z y)
  else if contains "recent" query_lower || contains "lately" query_lower then
    match max_date_row df with
    (* an empty table: the cutoff [df['date'].max() - 30 days] is NaT and
       every comparison with it is false *)
    | None => ret (filter (fun _ => false) df, "Last 30 days")
    | Some mx => ret (filter (fun e => (date mx - 30 <=? date e)%Z) df, "Last 30 days")
    end
  else ret (df, "All time").

(* ================================================================== *)
(** ** The intent cascade of [analyze_query] *)

Definition filler_words : list string := ["my"; "me"; "favorite"; "top"; "best"; "fave"; "all"; "the"].
Definition is_filler (w : string) : bool := existsb (String.eqb w) filler_words.

(** Does the candidate name an artist of the whole table: its own text or
    one of its variations contained in some lower-cased artist name.
    [None]: the variations raised. *)
Definition known_artist (df : store) (cand : string) : option bool :=
  if existsb (fun e => str_contains_ci cand (lower (artist e))) df then Some true
  else match generate_artist_name_variations cand with
       | None => None
       | Some vars =>
         Some (existsb (fun var => existsb (fun e => str_contains_ci (lower var) (lower (artist e))) df) vars)
       end.

(** The artist loops: the patterns in order; a match whose candidate is
    not a filler word and names a known artist ends the loop.
    [Some None]: no pattern yields an artist. *)
Fixpoint detect_artist (df : store) (ql : string) (pats : list regex) : option (option string) :=
  match pats with
  | [] => Some None
  | pat :: rest =>
    match search pat ql with
    | None => detect_artist df ql rest
    | Some m =>
      let cand := strip (group ql m 1) in
      if is_filler cand then detect_artist df ql rest
      else match known_artist df cand with
           | None => None
           | Some true => Some (Some cand)
           | Some false => detect_artist df ql rest
           end
    end
  end.

(** The genre loops: the first pattern match whose candidate is not a
    filler word. *)
Fixpoint detect_genre (ql : string) (pats : list regex) : option string :=
  match pats with
  | [] => None
  | pat :: rest =>
    match search pat ql with
    | None => detect_genre ql rest
    | Some m => let cand := strip (group ql m 1) in
                if is_filler cand then detect_genre ql rest else Some cand
    end
  end.

Definition wants_song (ql : string) : bool :=
  existsb (fun ph => contains ph ql) ["favorite song"; "top song"; "best song"; "song"].
Definition wants_artist (ql : string) : bool :=
  existsb (fun ph => contains ph ql) ["favorite artist"; "top artist"; "best artist"; "artist"].
Definition wants_genre (ql : string) : bool :=
  existsb (fun ph => contains ph ql) ["favorite genre"; "top genre"; "best genre"; "genre"].

(** The [requested_types] handed to [_get_multiple_favorites], when two or
    more signals are present. *)
Definition multi_request (ql : string) : option (list string) :=
  let s := wants_song ql in
  let a := wants_artist ql in
  let g := wants_genre ql in
  if s && a && g then Some ["song"; "artist"; "genre"]
  else if s && a then Some ["song"; "artist"]
  else if s && g then Some ["song"; "genre"]
  else if a && g then Some ["artist"; "genre"]
  else None.

Definition daily_phrases : list string :=
  ["what did i listen"; "listened to on"; "music on"; "listening history";
   "how long did i listen"; "how much music"; "music for on"].

(** Everything after [_filter_by_time]: [df] is [self.df], [fd] and [p]
    the filtered view and period label. *)
Definition classify (genres_col : bool) (df : store) (query : string) (fd : list event) (p : string)
  : option envelope :=
  let ql := lower query in
  match detect_artist df ql artist_song_patterns with
  | None => None
  | Some (Some a) => get_artist_songs fd p a
  | Some None =>
  match detect_artist df ql first_song_patterns with
  | None => None
  | Some (Some a) => get_first_song_by_artist fd p a
  | Some None =>
  match detect_genre ql first_genre_patterns with
  | Some g => get_first_song_by_genre genres_col fd p g
  | None =>
  match detect_artist df ql last_song_patterns with
  | None => None
  | Some (Some a) => get_last_song_by_artist fd p a
  | Some None =>
  match detect_genre ql last_genre_patterns with
  | Some g => get_last_song_by_genre genres_col fd p g
  | None =>
  match multi_request ql with
  | Some rt => get_multiple_favorites genres_col fd p rt
  | None =>
  if wants_song ql then get_favorite_song fd p
  else if wants_artist ql then get_favorite_artist fd p
  else if wants_genre ql then get_favorite_genre genres_col fd p
  else if existsb (fun ph => contains ph ql) daily_phrases then get_daily_listening genres_col fd p
  else general_result genres_col query fd p
  end end end end end end.

(** [analyze_query(query)] *)
Definition analyze_query (genres_col : bool) (query : string) : M envelope :=
  match search song_by_artist_re query with
  | Some m => query_song_by_artist (strip (group query m 1)) (strip (group query m 2))
  | None =>
    fp <- filter_by_time query ;;
    df <- get_df ;;
    lift (classify genres_col df query (fst fp) (snd fp))
  end.

(** The envelope [analyze_query] returns on a table ([None]: it raises);
    [genres_col]: the table has a ["genres"] column. *)
Definition run_query (genres_col : bool) (st : store) (query : string) : option envelope :=
  option_map fst (analyze_query genres_col query st).

(* ================================================================== *)
(** ** Frames as objects

    A pandas frame is an object on the heap; [self.df] is a reference to
    one.  Boolean indexing [self.df[mask]] and [self.df.copy()] build a
    new frame; the routines only read their frames.  [heap] lists the
    frames in order of creation, a frame being named by its position. *)

Record obj := { heap : list (list event); self_df : nat }.

Definition OM (A : Type) : Type := obj -> option (A * obj).
Definition oret {A} (a : A) : OM A := fun o => Some (a, o).
Definition obind {A B} (m : OM A) (k : A -> OM B) : OM B :=
  fun o => match m o with Some (a, o') => k a o' | None => None end.
Definition olift {A} (x : option A) : OM A :=
  fun o => match x with Some a => Some (a, o) | None => None end.
(** reading the frame at a location *)
Definition deref (l : nat) : OM (list event) :=
  fun o => match nth_error (heap o) l with Some f => Some (f, o) | None => None end.
(** [self.df] *)
Definition deref_self : OM (list event) := fun o => deref (self_df o) o.
(** a new frame holding [rows] *)
Definition alloc (rows : list event) : OM nat :=
  fun o => Some (List.length (heap o), {| heap := app (heap o) [rows]; self_df := self_df o |}).

Notation "x <-- m ;;; k" := (obind m (fun x => k)) (at level 61, m at next level, right associativity).

(** [_filter_by_time(query)] on the object: every branch builds its view
    as a new frame, [self.df[mask]] or [self.df.copy()]; its rows are the
    ones [filter_by_time] computes from the rows of [self.df]. *)
Definition filter_by_time_obj (query : string) : OM (nat * string) :=
  df <-- deref_self ;;;
  match filter_by_time query df with
  | None => olift None
  | Some ((rows, p), _) => l <-- alloc rows ;;; oret (l, p)
  end.

(** [analyze_query(query)] on the object: [_query_song_by_artist] and the
    cascade read [self.df], the aggregators read the view's frame. *)
Definition analyze_query_obj (genres_col : bool) (query : string) : OM envelope :=
  match search song_by_artist_re query with
  | Some m =>
    df <-- deref_self ;;;
    olift (option_map fst (query_song_by_artist (strip (group query m 1)) (strip (group query m 2)) df))
  | None =>
    lp <-- filter_by_time_obj query ;;;
    fd <-- deref (fst lp) ;;;
    df <-- deref_self ;;;
    olift (classify genres_col df query fd (snd lp))
  end.

(** The aggregation routines, as the cascade calls them. *)
Inductive aggregator : Type :=
| AFavoriteSong
| AFavoriteArtist
| AFavoriteGenre
| AMultipleFavorites (requested : list string)
| AFirstSongByArtist (artist_name : string)
| ALastSongByArtist (artist_name : string)
| AFirstSongByGenre (genre_name : string)
| ALastSongByGenre (genre_name : string)
| AArtistSongs (artist_name : string)
| ADailyListening
| AGeneral (query : string).

Definition run_aggregator (genres_col : bool) (r : aggregator) (v : list event) (p : string)
  : option envelope :=
  match r with
  | AFavoriteSong => get_favorite_song v p
  | AFavoriteArtist => get_favorite_artist v p
  | AFavoriteGenre => get_favorite_genre genres_col v p
  | AMultipleFavorites rt => get_multiple_favorites genres_col v p rt
  | AFirstSongByArtist a => get_first_song_by_artist v p a
  | ALastSongByArtist a => get_last_song_by_artist v p a
  | AFirstSongByGenre g => get_first_song_by_genre genres_col v p g
  | ALastSongByGenre g => get_last_song_by_genre genres_col v p g
  | AArtistSongs a => get_artist_songs v p a
  | ADailyListening => get_daily_listening genres_col v p
  | AGeneral q => general_result genres_col q v p
  end.

(** The artist name handed to an artist routine has a word (the cascade
    passes a non-empty pattern capture). *)
Definition aggregator_name_ok (r : aggregator) : Prop :=
  match r with
  | AFirstSongByArtist a | ALastSongByArtist a | AArtistSongs a => split_ws a <> []
  | _ => True
  end.


(* ================================================================== *)
(** ** Sample tables used by the concrete checks *)

Definition mk_event (y m d h : Z) (t a g : string) : event :=
  {| ts := {| yr := y; mo := m; dy := d; hh := h; mi := 0; ss := 0 |};
     track := t; artist := a; genres := Some g; ms_played := 200000 |}.

(** A song, "Blue", by an artist, "Adele", and a second artist. *)
Definition table_blue : store :=
  [ mk_event 2021 1 1 10 "Blue" "Adele" "pop";
    mk_event 2021 6 1 11 "Red" "J. Cole" "hip hop, rap";
    mk_event 2022 1 1 12 "Blue" "Adele" "pop" ].


(* ================================================================== *)
(** * Properties *)

(** ** Frame: the methods only read [self.df] *)

Lemma filter_true_id {A} (l : list A) : filter (fun _ => true) l = l.
Proof. induction l as [|x l IH]; simpl; [reflexivity | now rewrite IH]. Qed.

Lemma filter_by_time_frame (q : string) (st : store) :
  match filter_by_time q st with
  | Some ((v, p), st') => st' = st /\ exists f, v = filter f st
  | None => True
  end.
Proof.
  unfold filter_by_time, bind, get_df, ret, lift. cbv zeta.
  repeat match goal with
         | |- context [if ?b then _ else _] => destruct b
         | |- context [match max_date_row ?l with _ => _ end] => destruct (max_date_row l)
         end;
  try exact I;
  (split; [reflexivity | eexists; first [reflexivity | symmetry; apply filter_true_id]]).
Qed.

Lemma query_song_by_artist_frame (song artist_ : string) (st : store) :
  match query_song_by_artist song artist_ st with Some (_, st') => st' = st | None => True end.
Proof.
  unfold query_song_by_artist, bind, get_df, ret, lift. cbv zeta.
  repeat match goal with
         | |- context [match filter ?f ?l with [] => _ | _ :: _ => _ end] => destruct (filter f l)
         | |- context [first_min ?l] => destruct (first_min l)
         | |- context [first_max ?l] => destruct (first_max l)
         end; reflexivity || exact I.
Qed.

Lemma filter_by_time_obj_spec (q : string) (o : obj) (rows : list event) :
  nth_error (heap o) (self_df o) = Some rows ->
  match filter_by_time_obj q o with
  | Some ((l, p), o') =>
      exists rows', filter_by_time q rows = Some ((rows', p), rows) /\
      l = List.length (heap o) /\ self_df o' = self_df o /\ heap o' = app (heap o) [rows']
  | None => filter_by_time q rows = None
  end.
Proof.
  intros H.
  unfold filter_by_time_obj, obind, deref_self, deref. rewrite H.
  pose proof (filter_by_time_frame q rows) as Hf.
  destruct (filter_by_time q rows) as [[[r p] st']|]; [| reflexivity].
  destruct Hf as [-> _].
  unfold alloc, oret. simpl. exists r. repeat split.
Qed.

(** C9: the query methods never write [self.df]: after [analyze_query],
    [self.df] still refers to the same frame, which still holds the same
    rows, and the only frames added are new ones; the answer is the one
    [run_query] computes from those rows.  [_filter_by_time] returns its
    view as a new frame, distinct from [self.df], holding rows selected
    from [self.df]. *)
Theorem analyze_query_store_unchanged (gc : bool) (q : string) (o : obj) (rows : list event) :
  nth_error (heap o) (self_df o) = Some rows ->
  (forall env o', analyze_query_obj gc q o = Some (env, o') ->
     self_df o' = self_df o /\ nth_error (heap o') (self_df o) = Some rows /\
     (exists fs, heap o' = app (heap o) fs) /\ run_query gc rows q = Some env) /\
  (analyze_query_obj gc q o = None -> run_query gc rows q = None) /\
  (forall l p o', filter_by_time_obj q o = Some ((l, p), o') ->
     l <> self_df o /\ self_df o' = self_df o /\
     exists f, heap o' = app (heap o) [filter f rows]).
Proof.
  intros H.
  assert (Hlt : (self_df o < List.length (heap o))%nat)
    by (apply nth_error_Some; rewrite H; discriminate).
  assert (Hgoal :
    match analyze_query_obj gc q o with
    | Some (env, o') =>
        self_df o' = self_df o /\ (exists fs, heap o' = app (heap o) fs) /\
        run_query gc rows q = Some env
    | None => run_query gc rows q = None
    end).
  { unfold analyze_query_obj, run_query, analyze_query.
    destruct (search song_by_artist_re q) as [m|].
    - unfold obind, deref_self, deref, olift. rewrite H.
      destruct (query_song_by_artist _ _ rows) as [[env st']|]; simpl; [| reflexivity].
      repeat split. exists []. symmetry. apply app_nil_r.
    - unfold obind at 1.
      pose proof (filter_by_time_obj_spec q o rows H) as Hs.
      destruct (filter_by_time_obj q o) as [[[l p] o1]|].
      + destruct Hs as [r [Hr [-> [Hself Hheap]]]].
        unfold bind. rewrite Hr.
        unfold obind, deref_self, olift, get_df, lift. unfold deref. cbv beta.
        cbn [fst snd]. rewrite Hheap, (nth_error_app2 (heap o) [r] (le_n _)), Nat.sub_diag.
        cbn [nth_error]. rewrite Hself, Hheap, (nth_error_app1 (heap o) [r] Hlt), H.
        destruct (classify gc rows q r p) as [env|]; simpl; [| reflexivity].
        split; [exact Hself | split; [exists [r]; exact Hheap | reflexivity]].
      + unfold bind. rewrite Hs. reflexivity. }
  split; [| split].
  - intros env o' Ho. rewrite Ho in Hgoal.
    destruct Hgoal as [Hs [[fs Hh] Hr]].
    repeat split; [exact Hs | | exists fs; exact Hh | exact Hr].
    rewrite Hh, nth_error_app1 by lia. exact H.
  - intros Ho. rewrite Ho in Hgoal. exact Hgoal.
  - intros l p o' Ho.
    pose proof (filter_by_time_obj_spec q o rows H) as Hs. rewrite Ho in Hs.
    destruct Hs as [r [Hr [-> [Hself Hheap]]]].
    pose proof (filter_by_time_frame q rows) as Hf. rewrite Hr in Hf.
    destruct Hf as [_ [f ->]].
    split; [lia | split; [exact Hself | exists f; exact Hheap]].
Qed.

Lemma analyze_query_store_unchanged_witness :
  exists env o',
    analyze_query_obj true "favorite song in 2021" {| heap := [table_blue]; self_df := 0 |}
      = Some (env, o') /\
    self_df o' = 0%nat /\ nth_error (heap o') 0 = Some table_blue /\
    run_query true table_blue "favorite song in 2021" = Some env /\
    List.length (heap o') = 2%nat.
Proof.
  assert (H0 : nth_error (heap {| heap := [table_blue]; self_df := 0 |})
                         (self_df {| heap := [table_blue]; self_df := 0 |}) = Some table_blue)
    by reflexivity.
  destruct (analyze_query_obj true "favorite song in 2021" {| heap := [table_blue]; self_df := 0 |})
    as [[env o']|] eqn:E; [| vm_compute in E; discriminate].
  destruct (proj1 (analyze_query_store_unchanged true "favorite song in 2021" _ table_blue H0)
              env o' E) as (Hs & Hh & _ & Hr).
  exists env, o'. split; [reflexivity |]. split; [exact Hs |]. split; [exact Hh |].
  split; [exact Hr |]. vm_compute in E. injection E as _ <-. reflexivity.
Defined.

(** ** Error-only payloads on an empty view *)

Lemma split_ws_aux_nonempty (l cur : list ascii) :
  Forall (fun w => w <> EmptyString) (split_ws_aux l cur).
Proof.
  revert cur; induction l as [|c l IH]; intros cur; simpl.
  - destruct cur as [|c cur]; constructor; [| constructor].
    simpl. destruct (rev cur); simpl; discriminate.
  - destruct (is_space c).
    + destruct cur as [|c' cur]; [apply IH |].
      constructor; [| apply IH].
      simpl. destruct (rev cur); simpl; discriminate.
    + apply IH.
Qed.

Lemma variations_defined (a : string) :
  split_ws a <> [] -> exists vars, generate_artist_name_variations a = Some vars.
Proof.
  intros H. unfold generate_artist_name_variations.
  pose proof (split_ws_aux_nonempty (list_ascii_of_string a) []) as HF.
  fold (split_ws a) in HF.
  destruct (split_ws a) as [|w0 [|w1 rest]]; [congruence | eauto |].
  inversion HF as [|? ? Hw0 _]; subst.
  destruct w0; [congruence | eauto].
Qed.

Lemma select_artist_rows_nil (a : string) :
  split_ws a <> [] -> select_artist_rows [] a = Some [].
Proof.
  intros H. destruct (variations_defined a H) as [vars Hv].
  unfold select_artist_rows. simpl. rewrite Hv. clear Hv.
  induction vars as [|x vars IH]; simpl; [reflexivity | exact IH].
Qed.

(** C7: every aggregation routine, on an empty view, returns a payload
    whose only key is [error]. *)
Theorem aggregators_empty_view_error_only (gc : bool) (r : aggregator) (p : string) :
  aggregator_name_ok r ->
  exists msg env, run_aggregator gc r [] p = Some env /\ data env = [("error", JStr msg)].
Proof.
  intros Hok.
  destruct r; unfold aggregator_name_ok in Hok; unfold run_aggregator;
    unfold get_first_song_by_artist, get_last_song_by_artist, get_edge_song_by_artist,
           get_artist_songs, get_first_song_by_genre, get_last_song_by_genre,
           get_edge_song_by_genre;
    try (rewrite (select_artist_rows_nil _ Hok));
    destruct gc; eexists; eexists; split; reflexivity.
Qed.

Lemma select_artist_rows_nil_cases (a : string) :
  select_artist_rows [] a = None \/ select_artist_rows [] a = Some [].
Proof.
  unfold select_artist_rows. simpl.
  destruct (generate_artist_name_variations a) as [vars|]; [right | left; reflexivity].
  induction vars as [|x vars IH]; simpl; [reflexivity | exact IH].
Qed.

Lemma run_aggregator_empty (gc : bool) (r : aggregator) (p : string) (env : envelope) :
  run_aggregator gc r [] p = Some env ->
  (exists msg, data env = [("error", JStr msg)]) /\
  (analysis_type env = "general" -> data env = [("error", JStr ("No data found for " ++ p))]).
Proof.
  destruct r; unfold run_aggregator;
    unfold get_first_song_by_artist, get_last_song_by_artist, get_edge_song_by_artist,
           get_artist_songs, get_first_song_by_genre, get_last_song_by_genre,
           get_edge_song_by_genre;
    destruct gc;
    try match goal with
        | |- context [select_artist_rows [] ?a] =>
            destruct (select_artist_rows_nil_cases a) as [E|E]; rewrite E; [discriminate|]
        end;
    intros H; injection H as <-; (split; [eexists; reflexivity | simpl; try discriminate; auto]).
Qed.

(** The cascade always ends in one of the aggregation routines. *)
Lemma classify_dispatch (gc : bool) (df : store) (q : string) (fd : list event) (p : string)
  (env : envelope) :
  classify gc df q fd p = Some env -> exists r, run_aggregator gc r fd p = Some env.
Proof.
  unfold classify.
  repeat match goal with
         | |- context [match ?x with Some _ => _ | None => _ end] =>
             match x with
             | context [classify] => fail 1
             | _ => destruct x as [[|]|] || destruct x
             end
         | |- context [if ?b then _ else _] => destruct b
         end; intros H; try discriminate;
  solve [ exists AFavoriteSong; exact H | exists AFavoriteArtist; exact H
        | exists AFavoriteGenre; exact H | exists ADailyListening; exact H
        | eexists (AMultipleFavorites _); exact H | eexists (AGeneral _); exact H
        | eexists (AArtistSongs _); exact H | eexists (AFirstSongByArtist _); exact H
        | eexists (ALastSongByArtist _); exact H | eexists (AFirstSongByGenre _); exact H
        | eexists (ALastSongByGenre _); exact H ].
Qed.

Lemma filter_by_time_empty_table (q : string) :
  match filter_by_time q [] with
  | Some ((v, p), st') =>
      v = [] /\ st' = [] /\
      p = (if contains "recent" (lower q) || contains "lately" (lower q)
           then "Last 30 days" else "All time")
  | None => False
  end.
Proof.
  unfold filter_by_time, bind, get_df, ret, lift. simpl.
  destruct (contains "recent" (lower q) || contains "lately" (lower q)); simpl; auto.
Qed.

(** C3 (as the code behaves): on an empty table every answer of
    [analyze_query] carries an error-only payload, and when its type is
    [general] the payload is exactly the "No data found for <period>"
    error, the period being "Last 30 days" when the lower-cased query
    contains "recent" or "lately" and "All time" otherwise.  Queries that
    select an intent family keep that family's type. *)
Theorem empty_table_error_only (gc : bool) (q : string) (env : envelope) :
  run_query gc [] q = Some env ->
  (exists msg, data env = [("error", JStr msg)]) /\
  (analysis_type env = "general" ->
   data env = [("error", JStr ("No data found for " ++
                               (if contains "recent" (lower q) || contains "lately" (lower q)
                                then "Last 30 days" else "All time")))]).
Proof.
  unfold run_query, analyze_query.
  destruct (search song_by_artist_re q) as [m|].
  - unfold query_song_by_artist, bind, get_df, ret. simpl.
    intros H; injection H as <-. split; [eexists; reflexivity | simpl; discriminate].
  - unfold bind at 1.
    pose proof (filter_by_time_empty_table q) as Hf.
    destruct (filter_by_time q []) as [[[v p] st']|]; [| contradiction].
    destruct Hf as (-> & -> & Hp). rewrite <- Hp.
    unfold bind, get_df, lift. simpl.
    destruct (classify gc [] q [] p) as [e|] eqn:E; [| discriminate].
    intros H; injection H as <-.
    destruct (classify_dispatch _ _ _ _ _ _ E) as [r Hr].
    exact (run_aggregator_empty gc r p e Hr).
Qed.

(** C3 fails as stated: on an empty table, "favorite song" is answered
    with the [favorite_song] type, not [general]. *)
Lemma empty_table_favorite_song_not_general :
  run_query true [] "favorite song" =
    Some (err_env "favorite song in All time" "favorite_song" "No data found for All time" "All time")
  /\ analysis_type (err_env "favorite song in All time" "favorite_song"
                            "No data found for All time" "All time") <> "general".
Proof. split; [vm_compute; reflexivity | simpl; discriminate]. Qed.

(** ** Song-by-artist queries *)

(** C1 (defect): the pairing ("Blue", "Adele") is in the table, yet the
    song-by-artist pattern does not match "Blue by Adele" (its doubled
    backslashes ask for a literal backslash), and the query ends in the
    general statistics. *)
Theorem song_by_artist_query_missed :
  existsb (fun e => String.eqb (track e) "Blue" && String.eqb (artist e) "Adele") table_blue = true
  /\ search song_by_artist_re "Blue by Adele" = None
  /\ exists env, run_query true table_blue "Blue by Adele" = Some env
                 /\ analysis_type env = "general" /\ lookup "song" (data env) = None.
Proof.
  split; [reflexivity |]. split; [vm_compute; reflexivity |].
  eexists; split; [vm_compute; reflexivity | split; reflexivity].
Qed.

(** ** First-song queries on a name that is neither artist nor genre *)

Lemma filter_all_false {A} (f : A -> bool) (l : list A) :
  (forall x, In x l -> f x = false) -> filter f l = [].
Proof.
  induction l as [|x l IH]; intros H; simpl; [reflexivity |].
  rewrite (H x (or_introl eq_refl)). apply IH. intros y Hy. apply H. now right.
Qed.

(** C2 fails as stated: "first Blue song", where "Blue" is only a song
    title, is answered by the first-song-by-genre routine (a [first_song]
    error), not by the general fallback. *)
Lemma first_blue_song_not_general :
  known_artist table_blue "blue" = Some false
  /\ existsb (genre_contains "blue") table_blue = false
  /\ run_query true table_blue "first Blue song" =
       Some (err_env "first blue song" "first_song" "No songs found for genre blue" "All time").
Proof. split; [| split]; vm_compute; reflexivity. Qed.

(** C2 (as the code behaves): once the artist families have found no
    artist, a "first X song" query is dispatched to first-song-by-genre
    with X; when no row of the scoped view has a genre field containing
    X, the answer is a [first_song] envelope whose payload is only an
    error: "No songs found for genre X" when the table has a genres
    column, "No genre data available" when it has none. *)
Theorem first_song_unresolved_goes_to_genre (gc : bool) (st : store) (q X p : string)
  (fd : list event) :
  search song_by_artist_re q = None ->
  filter_by_time q st = Some ((fd, p), st) ->
  detect_artist st (lower q) artist_song_patterns = Some None ->
  detect_artist st (lower q) first_song_patterns = Some None ->
  detect_genre (lower q) first_genre_patterns = Some X ->
  (forall e, In e fd -> genre_contains X e = false) ->
  run_query gc st q =
    Some (err_env ("first " ++ X ++ " song") "first_song"
                  (if gc then "No songs found for genre " ++ X else "No genre data available") p).
Proof.
  intros Hs Hf Ha Hfa Hg Hno.
  unfold run_query, analyze_query. rewrite Hs.
  unfold bind at 1. rewrite Hf.
  unfold bind, get_df, lift. simpl.
  unfold classify. rewrite Ha, Hfa, Hg.
  unfold get_first_song_by_genre, get_edge_song_by_genre.
  destruct gc; [| reflexivity].
  rewrite (filter_all_false _ _ Hno). reflexivity.
Qed.

(** ** Witnesses: the hypotheses above are satisfiable *)

Lemma aggregators_empty_view_error_only_witness :
  aggregator_name_ok (AArtistSongs "j cole") /\
  exists msg env, run_aggregator true (AArtistSongs "j cole") [] "All time" = Some env
                  /\ data env = [("error", JStr msg)].
Proof.
  assert (H : aggregator_name_ok (AArtistSongs "j cole")) by (vm_compute; discriminate).
  split; [exact H |
          exact (aggregators_empty_view_error_only true (AArtistSongs "j cole") "All time" H)].
Defined.

Lemma empty_table_error_only_witness :
  run_query true [] "what did I play lately" =
    Some (err_env "what did I play lately" "general" "No data found for Last 30 days" "Last 30 days")
  /\ data (err_env "what did I play lately" "general" "No data found for Last 30 days" "Last 30 days")
     = [("error", JStr ("No data found for " ++
                         (if contains "recent" (lower "what did I play lately")
                             || contains "lately" (lower "what did I play lately")
                          then "Last 30 days" else "All time")))].
Proof.
  assert (H : run_query true [] "what did I play lately" =
              Some (err_env "what did I play lately" "general" "No data found for Last 30 days"
                            "Last 30 days"))
    by (vm_compute; reflexivity).
  split; [exact H | exact (proj2 (empty_table_error_only true "what did I play lately" _ H) eq_refl)].
Defined.

Lemma first_song_unresolved_goes_to_genre_witness :
  search song_by_artist_re "first Blue song" = None /\
  filter_by_time "first Blue song" table_blue = Some ((table_blue, "All time"), table_blue) /\
  detect_artist table_blue (lower "first Blue song") artist_song_patterns = Some None /\
  detect_artist table_blue (lower "first Blue song") first_song_patterns = Some None /\
  detect_genre (lower "first Blue song") first_genre_patterns = Some "blue" /\
  run_query true table_blue "first Blue song" =
    Some (err_env ("first " ++ "blue" ++ " song") "first_song"
                  (if true then "No songs found for genre " ++ "blue" else "No genre data available")
                  "All time").
Proof.
  assert (H1 : search song_by_artist_re "first Blue song" = None) by (vm_compute; reflexivity).
  assert (H2 : filter_by_time "first Blue song" table_blue = Some ((table_blue, "All time"), table_blue))
    by (vm_compute; reflexivity).
  assert (H3 : detect_artist table_blue (lower "first Blue song") artist_song_patterns = Some None)
    by (vm_compute; reflexivity).
  assert (H4 : detect_artist table_blue (lower "first Blue song") first_song_patterns = Some None)
    by (vm_compute; reflexivity).
  assert (H5 : detect_genre (lower "first Blue song") first_genre_patterns = Some "blue")
    by (vm_compute; reflexivity).
  assert (H6 : forall e, In e table_blue -> genre_contains "blue" e = false).
  { intros e He. simpl in He.
    destruct He as [<-|[<-|[<-|[]]]]; vm_compute; reflexivity. }
  exact (conj H1 (conj H2 (conj H3 (conj H4 (conj H5
           (first_song_unresolved_goes_to_genre true table_blue "first Blue song" "blue" "All time"
              table_blue H1 H2 H3 H4 H5 H6)))))).
Defined.

(** ** The year scope of [_filter_by_time] *)

Lemma insert_by_In {A} (lt : A -> A -> bool) (a : A) (l : list A) (x : A) :
  In x (insert_by lt a l) <-> x = a \/ In x l.
Proof.
  induction l as [|y l IH]; simpl.
  - intuition (subst; auto).
  - destruct (lt a y); simpl; [intuition (subst; auto) |]. rewrite IH. intuition (subst; auto).
Qed.

Lemma sort_by_In {A} (lt : A -> A -> bool) (l : list A) (x : A) :
  In x (sort_by lt l) <-> In x l.
Proof.
  unfold sort_by. induction l as [|a l IH]; simpl; [tauto |].
  rewrite insert_by_In, IH. intuition congruence.
Qed.

Lemma insert_by_sorted (a : Z) (l : list Z) :
  StronglySorted Z.le l -> StronglySorted Z.le (insert_by Z.ltb a l).
Proof.
  induction l as [|y l IH]; intros H; simpl.
  - constructor; constructor.
  - inversion H as [|? ? Hl Hf]; subst.
    destruct (Z.ltb_spec a y) as [Hay|Hya].
    + constructor; [exact H |]. constructor; [lia |].
      eapply Forall_impl; [| exact Hf]. intros z Hz; simpl in Hz; lia.
    + constructor; [now apply IH |].
      apply Forall_forall. intros z Hz. apply insert_by_In in Hz as [->|Hz]; [lia |].
      rewrite Forall_forall in Hf. now apply Hf.
Qed.

Lemma sort_by_sorted (l : list Z) : StronglySorted Z.le (sort_by Z.ltb l).
Proof.
  unfold sort_by. induction l as [|a l IH]; simpl; [constructor | now apply insert_by_sorted].
Qed.

Lemma dedup_In {A} (eqb : A -> A -> bool) (Heq : forall a b, eqb a b = true <-> a = b)
  (l : list A) (x : A) : In x (dedup eqb l) <-> In x l.
Proof.
  unfold dedup.
  enough (G : forall acc, In x (fold_left (fun acc x => if existsb (eqb x) acc then acc
                                                        else app acc [x]) l acc)
                          <-> In x acc \/ In x l) by (rewrite G; simpl; tauto).
  induction l as [|a l IH]; intros acc; simpl; [tauto |].
  rewrite IH. destruct (existsb (eqb a) acc) eqn:E.
  - apply existsb_exists in E as (y & Hy & Hay). apply Heq in Hay; subst y.
    intuition (subst; auto).
  - rewrite in_app_iff; simpl. tauto.
Qed.

Lemma find_sorted_least (f : Z -> bool) (l : list Z) (y0 : Z) :
  StronglySorted Z.le l -> find f l = Some y0 ->
  forall z, In z l -> f z = true -> (y0 <= z)%Z.
Proof.
  induction l as [|h l IH]; intros Hs Hfind z Hz Hfz; simpl in *; [discriminate |].
  inversion Hs as [|? ? Hl Hf]; subst.
  destruct (f h) eqn:Eh.
  - injection Hfind as <-. destruct Hz as [<-|Hz]; [lia |].
    rewrite Forall_forall in Hf. now apply Hf.
  - destruct Hz as [<-|Hz]; [congruence |]. now apply (IH Hl Hfind).
Qed.

Lemma years_in_data_In (st : store) (z : Z) :
  In z (sort_by Z.ltb (dedup Z.eqb (map year st))) <-> In z (map year st).
Proof. rewrite sort_by_In, dedup_In; [tauto | apply Z.eqb_eq]. Qed.

(** C4: a query that contains the digits of a year of the table (all
    years being positive) and no month name is scoped to one year: the
    label is "Year <y>" and the view is exactly the rows whose derived
    year is [y], where [y] is a year of the table written in the query,
    the least one when it contains several.  Day numbers play no part. *)
Theorem year_only_query_scope (st : store) (q : string) (y : Z) :
  In y (map year st) ->
  contains (str_Z y) q = true ->
  (forall e, In e st -> (0 < year e)%Z) ->
  find_month (lower q) month_names 1 = None ->
  exists y0,
    filter_by_time q st = Some ((filter (fun e => (year e =? y0)%Z) st, "Year " ++ str_Z y0), st)
    /\ In y0 (map year st) /\ contains (str_Z y0) q = true
    /\ (forall y', In y' (map year st) -> contains (str_Z y') q = true -> (y0 <= y')%Z).
Proof.
  intros Hy Hc Hpos Hm.
  destruct (find (fun y => contains (str_Z y) q) (sort_by Z.ltb (dedup Z.eqb (map year st))))
    as [y0|] eqn:E.
  - pose proof (find_some _ _ E) as [Hy0 Hc0].
    apply years_in_data_In in Hy0.
    assert (Hnz : (y0 =? 0)%Z = false).
    { apply in_map_iff in Hy0 as (e & <- & He). apply Hpos in He. apply Z.eqb_neq. lia. }
    exists y0. split; [| split; [exact Hy0 | split; [exact Hc0 |]]].
    + unfold filter_by_time, bind, get_df, ret, lift. cbv zeta.
      rewrite E, Hm, Hnz. reflexivity.
    + intros y' Hy' Hc'.
      apply (find_sorted_least _ _ y0 (sort_by_sorted _) E y'); [| exact Hc'].
      now apply years_in_data_In.
  - apply years_in_data_In in Hy.
    pose proof (find_none _ _ E y Hy) as Hf. simpl in Hf. congruence.
Qed.

Lemma year_only_query_scope_witness :
  In 2021%Z (map year table_blue) /\
  exists y0,
    filter_by_time "favorite song in 2021" table_blue
      = Some ((filter (fun e => (year e =? y0)%Z) table_blue, "Year " ++ str_Z y0), table_blue)
    /\ In y0 (map year table_blue) /\ contains (str_Z y0) "favorite song in 2021" = true
    /\ (forall y', In y' (map year table_blue) ->
                   contains (str_Z y') "favorite song in 2021" = true -> (y0 <= y')%Z).
Proof.
  assert (H1 : In 2021%Z (map year table_blue)) by (simpl; auto).
  assert (H2 : contains (str_Z 2021) "favorite song in 2021" = true) by (vm_compute; reflexivity).
  assert (H3 : forall e, In e table_blue -> (0 < year e)%Z).
  { intros e He. simpl in He. destruct He as [<-|[<-|[<-|[]]]]; vm_compute; reflexivity. }
  assert (H4 : find_month (lower "favorite song in 2021") month_names 1 = None)
    by (vm_compute; reflexivity).
  exact (conj H1 (year_only_query_scope table_blue "favorite song in 2021" 2021 H1 H2 H3 H4)).
Defined.

(** ** Frequency rankings *)

Definition count_ge (a b : string * Z) : Prop := (snd b <= snd a)%Z.

Lemma insert_desc_In (p : string * Z) (l : list (string * Z)) (x : string * Z) :
  In x (insert_desc p l) <-> x = p \/ In x l.
Proof.
  induction l as [|y l IH]; simpl.
  - intuition (subst; auto).
  - destruct (snd y <? snd p)%Z; simpl; [intuition (subst; auto) |].
    rewrite IH. intuition (subst; auto).
Qed.

Lemma insert_desc_sorted (p : string * Z) (l : list (string * Z)) :
  StronglySorted count_ge l -> StronglySorted count_ge (insert_desc p l).
Proof.
  unfold count_ge.
  induction l as [|y l IH]; intros H; simpl.
  - constructor; constructor.
  - inversion H as [|? ? Hl Hf]; subst.
    destruct (Z.ltb_spec (snd y) (snd p)) as [Hlt|Hge].
    + constructor; [exact H |]. constructor; [simpl; lia |].
      eapply Forall_impl; [| exact Hf]. intros z Hz; simpl in *; lia.
    + constructor; [now apply IH |].
      apply Forall_forall. intros z Hz. apply insert_desc_In in Hz as [->|Hz]; [simpl; lia |].
      rewrite Forall_forall in Hf. now apply Hf.
Qed.

Lemma sort_desc_sorted (l : list (string * Z)) : StronglySorted count_ge (sort_desc l).
Proof.
  unfold sort_desc.
  enough (G : forall acc, StronglySorted count_ge acc ->
                StronglySorted count_ge (fold_left (fun acc p => insert_desc p acc) l acc))
    by (apply G; constructor).
  induction l as [|p l IH]; intros acc Hacc; simpl; [exact Hacc |].
  apply IH. now apply insert_desc_sorted.
Qed.

Lemma firstn_In_sub {A} (n : nat) (l : list A) (x : A) : In x (firstn n l) -> In x l.
Proof.
  revert l; induction n as [|n IH]; intros [|y l]; simpl; try tauto.
  intros [<-|H]; [now left | right; now apply IH].
Qed.

Lemma firstn_sorted {A} (R : A -> A -> Prop) (n : nat) (l : list A) :
  StronglySorted R l -> StronglySorted R (firstn n l).
Proof.
  revert l; induction n as [|n IH]; intros [|y l] H; simpl; try constructor.
  - inversion H; subst. now apply IH.
  - inversion H as [|? ? _ Hf]; subst. rewrite Forall_forall in *.
    intros x Hx. apply Hf. eapply firstn_In_sub; eassumption.
Qed.

(** C8: in every ranking built by [value_counts] (the favourites take its
    first entry, the top-N lists its first N entries), the count of the
    top-ranked key is at least the count of every other key listed. *)
Theorem ranking_top_count_is_max (l : list string) (n : nat) (k : string) (c : Z)
  (rest : list (string * Z)) :
  firstn n (value_counts l) = (k, c) :: rest ->
  forall k' c', In (k', c') rest -> (c' <= c)%Z.
Proof.
  intros H k' c' Hin.
  pose proof (firstn_sorted count_ge n _ (sort_desc_sorted (tally l []))) as Hs.
  unfold value_counts in H. rewrite H in Hs.
  inversion Hs as [|? ? _ Hf]; subst.
  rewrite Forall_forall in Hf. exact (Hf _ Hin).
Qed.

Lemma ranking_top_count_is_max_witness :
  firstn 10 (value_counts ["a"; "b"; "a"]) = [("a", 2%Z); ("b", 1%Z)] /\
  (forall k' c', In (k', c') [("b", 1%Z)] -> (c' <= 2)%Z).
Proof.
  assert (H : firstn 10 (value_counts ["a"; "b"; "a"]) = ("a", 2%Z) :: [("b", 1%Z)])
    by (vm_compute; reflexivity).
  exact (conj H (ranking_top_count_is_max ["a"; "b"; "a"] 10 "a" 2 [("b", 1%Z)] H)).
Defined.

(** ** Multi-favourite requests *)

Lemma tally_keys (l : list string) (acc : list (string * Z)) (k : string) :
  In k (map fst (tally l acc)) <-> In k (map fst acc) \/ In k l.
Proof.
  revert acc; induction l as [|x l IH]; intros acc; simpl; [tauto |].
  rewrite IH.
  destruct (existsb (fun p => String.eqb (fst p) x) acc) eqn:E.
  - rewrite map_map.
    replace (map (fun p => fst (if String.eqb (fst p) x then (fst p, (snd p + 1)%Z) else p)) acc)
      with (map fst acc)
      by (apply map_ext; intros [a b]; simpl; destruct (String.eqb a x); reflexivity).
    apply existsb_exists in E as ([a b] & Hab & Hx). simpl in Hx.
    apply String.eqb_eq in Hx; subst a.
    assert (In x (map fst acc)) by (apply in_map_iff; exists (x, b); auto).
    intuition (subst; auto).
  - rewrite map_app, in_app_iff. simpl. intuition (subst; auto).
Qed.

Lemma sort_desc_In (l : list (string * Z)) (x : string * Z) :
  In x (sort_desc l) <-> In x l.
Proof.
  unfold sort_desc.
  enough (G : forall acc, In x (fold_left (fun acc p => insert_desc p acc) l acc)
                          <-> In x acc \/ In x l) by (rewrite G; simpl; tauto).
  induction l as [|p l IH]; intros acc; simpl; [tauto |].
  rewrite IH, insert_desc_In. intuition (subst; auto).
Qed.







Lemma gather_genres_spec (v : list event) :
  gather_genres v = if genres_nan v then None else Some (genre_labels v).
Proof.
  induction v as [|e v IH]; [reflexivity |].
  simpl. unfold genre_labels in *. simpl.
  destruct (genres e) as [g|]; simpl; [| reflexivity].
  rewrite IH. destruct (genres_nan v); reflexivity.
Qed.









Lemma value_counts_keys (l : list string) (k : string) (c : Z) :
  In (k, c) (value_counts l) -> In k l.
Proof.
  unfold value_counts. rewrite sort_desc_In. intros H.
  apply (in_map fst) in H. simpl in H.
  apply tally_keys in H. simpl in H. tauto.
Qed.









Lemma pat_re_chars (pat : string) :
  pat_re pat = seqs (map RChar (map pat_pred (list_ascii_of_string pat))).
Proof.
  unfold pat_re. f_equal. rewrite map_map.
  apply map_ext. intros c. unfold pat_pred, lit_ci. destruct (Ascii.eqb c "."); reflexivity.
Qed.

Lemma re_size_seqs_chars (ps : list (ascii -> bool)) :
  (List.length ps <= re_size (seqs (map RChar ps)))%nat.
Proof.
  induction ps as [|p [|q ps] IH]; simpl in *; lia.
Qed.

Lemma mt_seqs_chars (ps : list (ascii -> bool)) (f : nat) (s : input) (i : nat)
      (cs : caps) (k : kont) :
  (List.length ps < f)%nat ->
  mt f s (seqs (map RChar ps)) i cs k =
  if chars_at ps s i then k (i + List.length ps)%nat cs else None.
Proof.
  revert f i k. induction ps as [|p ps IH]; intros f i k Hf.
  - destruct f as [|f]; [simpl in Hf; lia |]. simpl. now rewrite Nat.add_0_r.
  - destruct f as [|f]; [simpl in Hf; lia |].
    destruct ps as [|q ps'].
    + simpl. destruct (nth_error s i) as [c|]; [| reflexivity].
      destruct (p c); simpl; [now rewrite Nat.add_1_r | reflexivity].
    + assert (Hseq : mt (S f) s (seqs (map RChar (p :: q :: ps'))) i cs k
                     = mt f s (RChar p) i cs (fun j cs' => mt f s (seqs (map RChar (q :: ps'))) j cs' k))
        by reflexivity.
      rewrite Hseq. simpl in Hf. destruct f as [|f]; [lia |].
      assert (Hch : forall k', mt (S f) s (RChar p) i cs k'
                      = match nth_error s i with Some c => if p c then k' (S i) cs else None
                                                | None => None end) by reflexivity.
      rewrite Hch. simpl chars_at. destruct (nth_error s i) as [c|]; [| reflexivity].
      destruct (p c); simpl andb; [| reflexivity].
      rewrite IH by (simpl; lia).
      replace (i + List.length (p :: q :: ps'))%nat with (S i + List.length (q :: ps'))%nat by (simpl; lia).
      reflexivity.
Qed.

Lemma match_at_pat (pat : string) (s : input) (i : nat) :
  match_at (pat_re pat) s i =
  if chars_at (map pat_pred (list_ascii_of_string pat)) s i
  then Some ((i + List.length (list_ascii_of_string pat))%nat, []) else None.
Proof.
  unfold match_at. rewrite pat_re_chars.
  pose proof (re_size_seqs_chars (map pat_pred (list_ascii_of_string pat))) as Hs.
  rewrite mt_seqs_chars; rewrite length_map in *; [reflexivity |].
  unfold re_fuel. nia.
Qed.

Lemma search_from_pat (pat : string) (s : input) (i n : nat) :
  match search_from (pat_re pat) s i n with Some _ => true | None => false end =
  existsb (chars_at (map pat_pred (list_ascii_of_string pat)) s) (seq i (S n)).
Proof.
  revert i. induction n as [|n IH]; intros i; simpl; rewrite match_at_pat;
    destruct (chars_at _ s i); simpl; auto.
Qed.

Lemma chars_at_cons (ps : list (ascii -> bool)) (x : ascii) (s : input) (j : nat) :
  chars_at ps (x :: s) (S j) = chars_at ps s j.
Proof.
  revert j. induction ps as [|p ps IH]; intros j; simpl; [reflexivity |].
  destruct (nth_error s j); [now rewrite IH | reflexivity].
Qed.

Lemma chars_at_skipn (ps : list (ascii -> bool)) (s : input) (j : nat) :
  chars_at ps s j = chars_at ps (skipn j s) 0.
Proof.
  revert s. induction j as [|j IH]; intros s; [reflexivity |].
  destruct s as [|x s].
  - destruct ps; simpl; [reflexivity |]. now destruct j.
  - rewrite chars_at_cons. apply IH.
Qed.

Lemma chars_at_prefix (lp t : list ascii) :
  forallb (fun c => negb (Ascii.eqb c ".")) lp = true ->
  chars_at (map pat_pred lp) t 0 = prefixb (map lower_c lp) (map lower_c t).
Proof.
  revert t. induction lp as [|c lp IH]; intros t Hd; [reflexivity |].
  simpl in Hd. apply andb_prop in Hd as [Hc Hd].
  destruct t as [|x t]; [reflexivity |].
  cbn [map chars_at nth_error prefixb].
  rewrite <- (IH t Hd), chars_at_skipn. simpl skipn.
  unfold pat_pred. destruct (Ascii.eqb c "."); [discriminate |].
  now rewrite Ascii.eqb_sym.
Qed.

Lemma existsb_map_comp {A B} (f : B -> bool) (g : A -> B) (l : list A) :
  existsb f (map g l) = existsb (fun x => f (g x)) l.
Proof. induction l as [|x l IH]; simpl; [reflexivity | now rewrite IH]. Qed.

Lemma existsb_ext' {A} (f g : A -> bool) (l : list A) :
  (forall x, f x = g x) -> existsb f l = existsb g l.
Proof. intros H. induction l as [|x l IH]; simpl; [reflexivity | now rewrite H, IH]. Qed.

Lemma containsl_positions (p s : list ascii) :
  containsl p s = existsb (fun j => prefixb p (skipn j s)) (seq 0 (S (List.length s))).
Proof.
  induction s as [|x s IH]; simpl; [now rewrite orb_false_r |].
  f_equal. rewrite IH, <- seq_shift, existsb_map_comp. reflexivity.
Qed.

(** [str.contains(pat, case=False)], for a pattern without [.], is
    case-insensitive substring containment. *)
Lemma str_contains_ci_substring (pat hay : string) :
  forallb (fun c => negb (Ascii.eqb c ".")) (list_ascii_of_string pat) = true ->
  str_contains_ci pat hay = contains (lower pat) (lower hay).
Proof.
  intros Hd. unfold str_contains_ci, search, contains, lower.
  rewrite search_from_pat, !list_ascii_of_string_of_list_ascii, containsl_positions, length_map.
  apply existsb_ext'. intros j.
  rewrite chars_at_skipn, chars_at_prefix by exact Hd.
  now rewrite skipn_map.
Qed.

Lemma find_some_split {A} (f : A -> bool) (l : list A) (x : A) :
  find f l = Some x ->
  exists pre post, l = app pre (x :: post) /\ (forall w, In w pre -> f w = false) /\ f x = true.
Proof.
  induction l as [|y l IH]; simpl; [discriminate |].
  destruct (f y) eqn:Ey.
  - intros H. injection H as <-. exists [], l. split; [reflexivity |]. split; [intros w [] | exact Ey].
  - intros H. destruct (IH H) as (pre & post & -> & Hpre & Hx).
    exists (y :: pre), post. split; [reflexivity |]. split; [| exact Hx].
    intros w [<-|Hw]; [exact Ey | now apply Hpre].
Qed.

Lemma first_min_In (l : list event) :
  l <> [] -> exists e, first_min l = Some e /\ In e l.
Proof.
  induction l as [|x l IH]; intros H; [congruence |]. simpl.
  destruct l as [|y l'].
  - exists x. simpl. auto.
  - destruct IH as (e & He & Hin); [discriminate |]. rewrite He.
    destruct (ts_key (ts e) <? ts_key (ts x))%Z; [exists e | exists x]; simpl in *; auto.
Qed.

Lemma first_max_In (l : list event) :
  l <> [] -> exists e, first_max l = Some e /\ In e l.
Proof.
  induction l as [|x l IH]; intros H; [congruence |]. simpl.
  destruct l as [|y l'].
  - exists x. simpl. auto.
  - destruct IH as (e & He & Hin); [discriminate |]. rewrite He.
    destruct (ts_key (ts x) <? ts_key (ts e))%Z; [exists e | exists x]; simpl in *; auto.
Qed.

Lemma rows_with_artist_substring (name : string) (v : list event) :
  forallb (fun c => negb (Ascii.eqb c ".")) (list_ascii_of_string name) = true ->
  rows_with_artist name v = filter (fun e => contains (lower name) (lower (artist e))) v.
Proof.
  intros Hd. unfold rows_with_artist. apply filter_ext. intros e.
  now apply str_contains_ci_substring.
Qed.

Lemma select_artist_rows_cases (v : list event) (name : string) (vars : list string) :
  generate_artist_name_variations name = Some vars ->
  exists sel, select_artist_rows v name = Some sel /\
    ((rows_with_artist name v <> [] /\ sel = rows_with_artist name v) \/
     (rows_with_artist name v = [] /\
      ((sel = [] /\ forall w, In w vars -> rows_with_artist w v = []) \/
       exists pre var post, vars = app pre (var :: post) /\
         (forall w, In w pre -> rows_with_artist w v = []) /\
         sel = rows_with_artist var v /\ sel <> []))).
Proof.
  intros Hv. unfold select_artist_rows.
  destruct (rows_with_artist name v) as [|r0 rs] eqn:R.
  - rewrite Hv.
    destruct (find (fun var => match rows_with_artist var v with [] => false | _ => true end) vars)
      as [var|] eqn:F.
    + eexists. split; [reflexivity |]. right. split; [reflexivity |]. right.
      destruct (find_some_split _ _ _ F) as (pre & post & Hvars & Hpre & Hx).
      exists pre, var, post. split; [exact Hvars |]. split.
      * intros w Hw. specialize (Hpre w Hw). now destruct (rows_with_artist w v).
      * split; [reflexivity |]. now destruct (rows_with_artist var v).
    + eexists. split; [reflexivity |]. right. split; [reflexivity |]. left.
      split; [reflexivity |]. intros w Hw.
      pose proof (find_none _ _ F w Hw) as Hw'. simpl in Hw'.
      now destruct (rows_with_artist w v).
  - eexists. split; [reflexivity |]. left. split; [discriminate | reflexivity].
Qed.

(** C10 (counterexample): on [table_blue] the candidate "j cole" is a
    substring of no artist name, even ignoring case ("J. Cole" has a dot
    between the two words), yet the artist-songs routine aggregates the
    "J. Cole" row, found through the variation "J. cole" whose "." matches
    any character, and reports it under the artist "J. Cole". *)
Lemma artist_songs_variation_not_substring :
  filter (fun e => contains (lower "j cole") (lower (artist e))) table_blue = [] /\
  exists env, get_artist_songs table_blue "All time" "j cole" = Some env /\
    lookup "artist" (data env) = Some (JStr "J. Cole") /\
    lookup "total_plays" (data env) = Some (JInt 1).
Proof.
  split; [vm_compute; reflexivity |].
  eexists. split; [vm_compute; reflexivity |]. split; vm_compute; reflexivity.
Qed.

(** C10 (amended): for a candidate with at least one word and no ".",
    every artist-scoped routine selects the rows of the scoped view whose
    artist name contains the candidate, ignoring case; only when there is
    none, it takes the rows matched by the first of the candidate's name
    variations that matches some row (none when no variation does).  The
    rows selected, whatever their artists, are aggregated together: the
    artist-songs result counts all of them, the first/last-song results
    pick their song among them, and each result reports as "artist" the
    artist name of the first selected row in view order. *)
Theorem artist_scoped_selection (v : list event) (p name : string) :
  split_ws name <> [] ->
  forallb (fun c => negb (Ascii.eqb c ".")) (list_ascii_of_string name) = true ->
  exists vars sel,
    generate_artist_name_variations name = Some vars /\
    select_artist_rows v name = Some sel /\
    ((filter (fun e => contains (lower name) (lower (artist e))) v <> [] /\
      sel = filter (fun e => contains (lower name) (lower (artist e))) v) \/
     (filter (fun e => contains (lower name) (lower (artist e))) v = [] /\
      ((sel = [] /\ forall w, In w vars -> rows_with_artist w v = []) \/
       exists pre var post, vars = app pre (var :: post) /\
         (forall w, In w pre -> rows_with_artist w v = []) /\
         sel = rows_with_artist var v /\ sel <> []))) /\
    (forall e0 rest, sel = e0 :: rest ->
       (exists env, get_artist_songs v p name = Some env /\
          data env = [("artist", JStr (artist e0));
                      ("top_songs", counts_dict 10 (value_counts (map track sel)));
                      ("total_plays", JInt (Z.of_nat (List.length sel)));
                      ("total_hours", JNum (sumQ (map hours_played sel)))]) /\
       (forall first : bool, exists e env,
          In e sel /\ (if first then first_min sel else first_max sel) = Some e /\
          get_edge_song_by_artist first v p name = Some env /\
          data env = ("artist", JStr (artist e0)) :: song_row_data e)).
Proof.
  intros Hn Hd.
  destruct (variations_defined name Hn) as (vars & Hv).
  destruct (select_artist_rows_cases v name vars Hv) as (sel & Hsel & Hc).
  rewrite (rows_with_artist_substring name v Hd) in Hc.
  exists vars, sel. split; [exact Hv |]. split; [exact Hsel |]. split; [exact Hc |].
  intros e0 rest ->. split.
  - eexists. split; [unfold get_artist_songs; rewrite Hsel; reflexivity | reflexivity].
  - intros first.
    assert (Hne : e0 :: rest <> []) by discriminate.
    destruct first.
    + destruct (first_min_In _ Hne) as (e & He & Hin).
      exists e. eexists. split; [exact Hin |]. split; [exact He |].
      split; [unfold get_edge_song_by_artist; rewrite Hsel, He; reflexivity | reflexivity].
    + destruct (first_max_In _ Hne) as (e & He & Hin).
      exists e. eexists. split; [exact Hin |]. split; [exact He |].
      split; [unfold get_edge_song_by_artist; rewrite Hsel, He; reflexivity | reflexivity].
Qed.

Lemma artist_scoped_selection_witness :
  split_ws "j cole" <> [] /\
  forallb (fun c => negb (Ascii.eqb c ".")) (list_ascii_of_string "j cole") = true /\
  exists vars sel,
    generate_artist_name_variations "j cole" = Some vars /\
    select_artist_rows table_blue "j cole" = Some sel.
Proof.
  assert (Hn : split_ws "j cole" <> []) by (vm_compute; discriminate).
  assert (Hd : forallb (fun c => negb (Ascii.eqb c ".")) (list_ascii_of_string "j cole") = true)
    by (vm_compute; reflexivity).
  split; [exact Hn |]. split; [exact Hd |].
  destruct (artist_scoped_selection table_blue "All time" "j cole" Hn Hd)
    as (vars & sel & Hv & Hs & _).
  exists vars, sel. split; [exact Hv | exact Hs].
Defined.

(** ** Counting: [value_counts] and [nunique] *)

Lemma tally_count_incr (k x : string) (acc : list (string * Z)) :
  tally_count k (map (fun p => if String.eqb (fst p) x then (fst p, (snd p + 1)%Z) else p) acc)
  = (tally_count k acc +
     if String.eqb k x && existsb (fun p => String.eqb (fst p) k) acc then 1 else 0)%Z.
Proof.
  unfold tally_count. induction acc as [|[a n] acc IH]; simpl; [now rewrite andb_false_r |].
  destruct (String.eqb a x) eqn:Ea; simpl.
  - destruct (String.eqb a k) eqn:Ek; simpl.
    + apply String.eqb_eq in Ek. subst. rewrite Ea. reflexivity.
    + exact IH.
  - destruct (String.eqb a k) eqn:Ek; simpl.
    + apply String.eqb_eq in Ek. subst. rewrite Ea. simpl. lia.
    + exact IH.
Qed.

Lemma tally_count_app_new (k x : string) (acc : list (string * Z)) :
  tally_count k (app acc [(x, 1%Z)])
  = (tally_count k acc +
     if String.eqb k x && negb (existsb (fun p => String.eqb (fst p) k) acc) then 1 else 0)%Z.
Proof.
  unfold tally_count. induction acc as [|[a n] acc IH]; simpl.
  - rewrite String.eqb_sym. destruct (String.eqb k x); reflexivity.
  - destruct (String.eqb a k) eqn:Ek; simpl.
    + rewrite andb_false_r. lia.
    + exact IH.
Qed.

Lemma tally_count_tally (k : string) (l : list string) (acc : list (string * Z)) :
  tally_count k (tally l acc) = (tally_count k acc + Z.of_nat (count_occ string_dec l k))%Z.
Proof.
  revert acc. induction l as [|x l IH]; intros acc; simpl; [lia |].
  rewrite IH.
  destruct (existsb (fun p => String.eqb (fst p) x) acc) eqn:E.
  - rewrite tally_count_incr.
    destruct (string_dec x k) as [<-|Hne].
    + rewrite String.eqb_refl, E. simpl. lia.
    + assert (String.eqb k x = false) by (apply String.eqb_neq; congruence).
      rewrite H. simpl. lia.
  - rewrite tally_count_app_new.
    destruct (string_dec x k) as [<-|Hne].
    + rewrite String.eqb_refl, E. simpl. lia.
    + assert (String.eqb k x = false) by (apply String.eqb_neq; congruence).
      rewrite H. simpl. lia.
Qed.

Lemma existsb_key_In (x : string) (acc : list (string * Z)) :
  existsb (fun p => String.eqb (fst p) x) acc = true <-> In x (map fst acc).
Proof.
  rewrite existsb_exists. split.
  - intros ([a n] & Hin & He). apply String.eqb_eq in He. simpl in He. subst.
    apply (in_map fst) in Hin. exact Hin.
  - intros Hin. apply in_map_iff in Hin as ([a n] & <- & Hin).
    exists (a, n). split; [exact Hin | apply String.eqb_refl].
Qed.

Lemma tally_nodup (l : list string) (acc : list (string * Z)) :
  NoDup (map fst acc) -> NoDup (map fst (tally l acc)).
Proof.
  revert acc. induction l as [|x l IH]; intros acc Hnd; simpl; [exact Hnd |].
  apply IH.
  destruct (existsb (fun p => String.eqb (fst p) x) acc) eqn:E.
  - rewrite map_map.
    replace (map (fun p => fst (if String.eqb (fst p) x then (fst p, (snd p + 1)%Z) else p)) acc)
      with (map fst acc); [exact Hnd |].
    apply map_ext. intros [a n]. simpl. now destruct (String.eqb a x).
  - rewrite map_app. simpl.
    assert (Hx : ~ In x (map fst acc)) by (rewrite <- existsb_key_In; congruence).
    apply NoDup_app; [exact Hnd | constructor; [intros [] | constructor] |].
    intros y Hy [<-|[]]. contradiction.
Qed.

Lemma tally_count_In (k : string) (c : Z) (acc : list (string * Z)) :
  NoDup (map fst acc) -> In (k, c) acc -> tally_count k acc = c.
Proof.
  unfold tally_count. induction acc as [|[a n] acc IH]; intros Hnd Hin; simpl; [destruct Hin |].
  inversion Hnd as [|? ? Ha Hnd']; subst.
  destruct Hin as [Heq|Hin].
  - injection Heq as -> ->. now rewrite String.eqb_refl.
  - destruct (String.eqb a k) eqn:E.
    + apply String.eqb_eq in E. subst. exfalso. apply Ha. apply (in_map fst) in Hin. exact Hin.
    + now apply IH.
Qed.

Lemma insert_desc_perm (p : string * Z) (l : list (string * Z)) :
  Permutation (insert_desc p l) (p :: l).
Proof.
  induction l as [|y l IH]; simpl; [reflexivity |].
  destruct (snd y <? snd p)%Z; [reflexivity |].
  rewrite IH. apply perm_swap.
Qed.

Lemma sort_desc_perm (l : list (string * Z)) : Permutation (sort_desc l) l.
Proof.
  unfold sort_desc.
  enough (G : forall acc, Permutation (fold_left (fun acc p => insert_desc p acc) l acc) (app acc l))
    by (rewrite G; reflexivity).
  induction l as [|p l IH]; intros acc; simpl; [now rewrite app_nil_r |].
  rewrite IH, insert_desc_perm. apply Permutation_middle.
Qed.

(** Every entry of a value count carries the exact number of occurrences
    of its key, keys are distinct, and every value occurs as a key. *)
Lemma value_counts_exact (l : list string) :
  NoDup (map fst (value_counts l)) /\
  (forall k c, In (k, c) (value_counts l) -> c = Z.of_nat (count_occ string_dec l k)) /\
  (forall x, In x l -> exists c, In (x, c) (value_counts l)).
Proof.
  assert (Hnd : NoDup (map fst (tally l []))) by (apply tally_nodup; constructor).
  assert (Hp : Permutation (value_counts l) (tally l [])) by apply sort_desc_perm.
  split; [| split].
  - eapply Permutation_NoDup; [| exact Hnd]. apply Permutation_map. now symmetry.
  - intros k c Hin. unfold value_counts in Hin. rewrite sort_desc_In in Hin.
    rewrite <- (tally_count_In k c _ Hnd Hin), tally_count_tally. reflexivity.
  - intros x Hx.
    assert (Hk : In x (map fst (tally l []))) by (apply tally_keys; now right).
    apply in_map_iff in Hk as ([x' c] & Hx' & Hin). simpl in Hx'. subst x'.
    exists c. unfold value_counts. now apply sort_desc_In.
Qed.

Lemma value_counts_top (l : list string) (k : string) (c : Z) (r : list (string * Z)) :
  value_counts l = (k, c) :: r ->
  In k l /\ c = Z.of_nat (count_occ string_dec l k) /\
  (forall x, In x l -> (Z.of_nat (count_occ string_dec l x) <= c)%Z).
Proof.
  intros H. destruct (value_counts_exact l) as (_ & Hc & Hk).
  split; [apply (value_counts_keys l k c); rewrite H; now left |].
  split; [apply Hc; rewrite H; now left |].
  intros x Hx. destruct (Hk x Hx) as (cx & Hin).
  rewrite <- (Hc x cx Hin).
  pose proof (sort_desc_sorted (tally l [])) as Hs. fold (value_counts l) in Hs.
  rewrite H in Hs. inversion Hs as [|? ? _ Hf]; subst.
  rewrite H in Hin. destruct Hin as [Heq|Hin]; [injection Heq as _ <-; lia |].
  rewrite Forall_forall in Hf. exact (Hf _ Hin).
Qed.

Lemma sorted_app_across {A} (R : A -> A -> Prop) (l1 l2 : list A) (a b : A) :
  StronglySorted R (app l1 l2) -> In a l1 -> In b l2 -> R a b.
Proof.
  induction l1 as [|x l1 IH]; simpl; intros Hs Ha Hb; [destruct Ha |].
  inversion Hs as [|? ? Hs' Hf]; subst.
  destruct Ha as [<-|Ha].
  - rewrite Forall_forall in Hf. apply Hf, in_or_app. now right.
  - now apply IH.
Qed.

(** The [head(n).to_dict()] of a value count: at most [n] distinct keys,
    each with its exact number of occurrences, and no value left out
    occurs more often than a value listed. *)
Lemma counts_dict_top (n : nat) (l : list string) (kvs : list (string * json)) :
  counts_dict n (value_counts l) = JObj kvs ->
  (List.length kvs <= n)%nat /\ NoDup (map fst kvs) /\
  (forall k x, In (k, x) kvs -> x = JInt (Z.of_nat (count_occ string_dec l k))) /\
  (forall k y, In k (map fst kvs) -> In y l -> ~ In y (map fst kvs) ->
     (count_occ string_dec l y <= count_occ string_dec l k)%nat).
Proof.
  unfold counts_dict. intros H. injection H as <-.
  destruct (value_counts_exact l) as (Hnd & Hc & Hk).
  assert (Hfst : map fst (map (fun p => (fst p, JInt (snd p))) (firstn n (value_counts l)))
                 = map fst (firstn n (value_counts l)))
    by (rewrite map_map; reflexivity).
  split; [rewrite length_map, length_firstn; lia |].
  split.
  { rewrite Hfst. rewrite <- (firstn_skipn n (value_counts l)) in Hnd.
    rewrite map_app in Hnd. now apply NoDup_app_remove_r in Hnd. }
  split.
  { intros k x Hin. apply in_map_iff in Hin as ([k' c] & Heq & Hin). simpl in Heq.
    injection Heq as <- <-. f_equal. apply Hc. eapply firstn_In_sub. exact Hin. }
  intros k y Hk' Hy Hny. rewrite Hfst in Hk', Hny.
  apply in_map_iff in Hk' as ([k0 ck] & Hk0 & Hink). simpl in Hk0. subst k0.
  destruct (Hk y Hy) as (cy & Hiny).
  assert (Hck : ck = Z.of_nat (count_occ string_dec l k))
    by (apply Hc; eapply firstn_In_sub; exact Hink).
  assert (Hcy : cy = Z.of_nat (count_occ string_dec l y)) by (apply Hc; exact Hiny).
  rewrite <- (firstn_skipn n (value_counts l)) in Hiny.
  apply in_app_or in Hiny as [Hiny|Hiny].
  - exfalso. apply Hny. apply (in_map fst) in Hiny. exact Hiny.
  - pose proof (sort_desc_sorted (tally l [])) as Hs. fold (value_counts l) in Hs.
    rewrite <- (firstn_skipn n (value_counts l)) in Hs.
    pose proof (sorted_app_across _ _ _ _ _ Hs Hink Hiny) as Hge. unfold count_ge in Hge.
    simpl in Hge. lia.
Qed.

Lemma filter_first {A} (f : A -> bool) (l : list A) (e : A) (r : list A) :
  filter f l = e :: r ->
  exists pre post, l = app pre (e :: post) /\ f e = true /\ (forall x, In x pre -> f x = false).
Proof.
  revert r. induction l as [|y l IH]; intros r; simpl; [discriminate |].
  destruct (f y) eqn:Ey.
  - intros H. injection H as <- _. exists [], l. split; [reflexivity |]. split; [exact Ey | intros x []].
  - intros H. destruct (IH r H) as (pre & post & -> & He & Hpre).
    exists (y :: pre), post. split; [reflexivity |]. split; [exact He |].
    intros x [<-|Hx]; [exact Ey | now apply Hpre].
Qed.

(** The favourite artist is an artist of the view, reported with the
    number of rows it has there, and no artist of the view has more. *)
Theorem favorite_artist_is_most_played (v : list event) (p : string) (env : envelope)
  (a : string) (c : Z) :
  get_favorite_artist v p = Some env ->
  lookup "top_artists" (data env) = Some (JObj [(a, JInt c)]) ->
  In a (map artist v) /\ c = Z.of_nat (count_occ string_dec (map artist v) a) /\
  (forall e, In e v -> (Z.of_nat (count_occ string_dec (map artist v) (artist e)) <= c)%Z).
Proof.
  unfold get_favorite_artist. intros H Hl.
  destruct v as [|e0 v0]; [injection H as <-; discriminate |].
  destruct (value_counts (map artist (e0 :: v0))) as [|[k n] r] eqn:Vc; [discriminate |].
  injection H as <-. simpl in Hl. injection Hl as <- <-.
  destruct (value_counts_top _ _ _ _ Vc) as (Hk & Hc & Hmax).
  split; [exact Hk |]. split; [exact Hc |].
  intros e He. apply Hmax. now apply in_map.
Qed.

(** The favourite song is a track of the view, reported with the number
    of rows it has there, no track of the view has more, and the artist
    reported is the one of the first row of the view with that track. *)
Theorem favorite_song_is_most_played (v : list event) (p : string) (env : envelope)
  (s a : string) (c : Z) :
  get_favorite_song v p = Some env ->
  lookup "top_songs" (data env) = Some (JObj [(s, JInt c)]) ->
  lookup "artist" (data env) = Some (JStr a) ->
  c = Z.of_nat (count_occ string_dec (map track v) s) /\
  (forall e, In e v -> (Z.of_nat (count_occ string_dec (map track v) (track e)) <= c)%Z) /\
  exists pre e post, v = app pre (e :: post) /\ track e = s /\ artist e = a /\
    (forall x, In x pre -> track x <> s).
Proof.
  unfold get_favorite_song. intros H Hl Ha.
  destruct v as [|e0 v0]; [injection H as <-; discriminate |].
  destruct (value_counts (map track (e0 :: v0))) as [|[k n] r] eqn:Vc; [discriminate |].
  destruct (filter (fun e => String.eqb (track e) k) (e0 :: v0)) as [|e1 r1] eqn:F; [discriminate |].
  injection H as <-. simpl in Hl, Ha. injection Hl as <- <-. injection Ha as <-.
  destruct (value_counts_top _ _ _ _ Vc) as (_ & Hc & Hmax).
  split; [exact Hc |]. split; [intros e He; apply Hmax; now apply in_map |].
  destruct (filter_first _ _ _ _ F) as (pre & post & Hv & He1 & Hpre).
  exists pre, e1, post. split; [exact Hv |]. split; [now apply String.eqb_eq |].
  split; [reflexivity |]. intros x Hx Heq. specialize (Hpre x Hx). simpl in Hpre.
  rewrite Heq, String.eqb_refl in Hpre. discriminate.
Qed.

(** The favourite genre is a counted label of the view, reported with the
    number of times it is counted, and no label is counted more often; its
    top-five list holds at most five distinct labels with their exact
    counts, and no label left out is counted more often than one listed. *)
Theorem favorite_genre_is_most_counted (gc : bool) (v : list event) (p : string) (env : envelope)
  (g : string) (c : Z) (kvs : list (string * json)) :
  get_favorite_genre gc v p = Some env ->
  lookup "top_genre" (data env) = Some (JStr g) ->
  lookup "track_count" (data env) = Some (JInt c) ->
  lookup "top_genres" (data env) = Some (JObj kvs) ->
  In g (genre_labels v) /\ c = Z.of_nat (count_occ string_dec (genre_labels v) g) /\
  (forall g', In g' (genre_labels v) ->
     (Z.of_nat (count_occ string_dec (genre_labels v) g') <= c)%Z) /\
  (List.length kvs <= 5)%nat /\ NoDup (map fst kvs) /\
  (forall k x, In (k, x) kvs -> x = JInt (Z.of_nat (count_occ string_dec (genre_labels v) k))) /\
  (forall k y, In k (map fst kvs) -> In y (genre_labels v) -> ~ In y (map fst kvs) ->
     (count_occ string_dec (genre_labels v) y <= count_occ string_dec (genre_labels v) k)%nat).
Proof.
  unfold get_favorite_genre. intros H Hg Hc Hk.
  destruct v as [|e0 v0]; [injection H as <-; discriminate |].
  destruct gc; cbn [negb] in H; [| injection H as <-; discriminate].
  rewrite gather_genres_spec in H. destruct (genres_nan (e0 :: v0)); [discriminate |].
  destruct (genre_labels (e0 :: v0)) as [|g0 gs] eqn:G; [injection H as <-; discriminate |].
  destruct (value_counts (g0 :: gs)) as [|[k n] r] eqn:Vc; [discriminate |].
  injection H as <-. simpl in Hg, Hc. injection Hg as <-. injection Hc as <-.
  simpl in Hk. injection Hk as Hk.
  assert (Hd : counts_dict 5 (value_counts (g0 :: gs)) = JObj kvs)
    by (rewrite Vc; unfold counts_dict; f_equal; exact Hk).
  destruct (value_counts_top _ _ _ _ Vc) as (Hin & Hcnt & Hmax).
  destruct (counts_dict_top _ _ _ Hd) as (H1 & H2 & H3 & H4).
  repeat split; assumption.
Qed.

(** Evaluates a key lookup in a literal payload. *)
Ltac lk := cbn [lookup find fst snd option_map data String.eqb Ascii.eqb Bool.eqb andb].
Ltac lk_in H := cbn [lookup find fst snd option_map data String.eqb Ascii.eqb Bool.eqb andb] in H.

Lemma dedup_NoDup {A} (eqb : A -> A -> bool) (Heq : forall a b, eqb a b = true <-> a = b)
  (l : list A) : NoDup (dedup eqb l).
Proof.
  unfold dedup.
  enough (G : forall acc, NoDup acc ->
            NoDup (fold_left (fun acc x => if existsb (eqb x) acc then acc else app acc [x]) l acc))
    by (apply G; constructor).
  induction l as [|x l IH]; intros acc Hacc; simpl; [exact Hacc |].
  apply IH. destruct (existsb (eqb x) acc) eqn:E; [exact Hacc |].
  apply NoDup_app; [exact Hacc | constructor; [intros [] | constructor] |].
  intros y Hy [Hxy|[]]. subst y.
  assert (existsb (eqb x) acc = true) by (apply existsb_exists; exists x; split; [exact Hy | now apply Heq]).
  congruence.
Qed.

Lemma NoDup_same_length {A} (l1 l2 : list A) :
  NoDup l1 -> NoDup l2 -> (forall x, In x l1 <-> In x l2) -> List.length l1 = List.length l2.
Proof.
  intros H1 H2 H. apply Nat.le_antisymm; apply NoDup_incl_length; try assumption;
    intros x Hx; now apply H.
Qed.

(** [nunique()] is the number of distinct values. *)
Lemma nunique_distinct (l : list string) :
  nunique l = Z.of_nat (List.length (nodup string_dec l)).
Proof.
  unfold nunique. f_equal.
  rewrite <- (length_map fst).
  apply NoDup_same_length; [apply tally_nodup; constructor | apply NoDup_nodup |].
  intros x. rewrite tally_keys, nodup_In. simpl. tauto.
Qed.

Lemma dedup_length_nodup (l : list Z) :
  List.length (dedup Z.eqb l) = List.length (nodup Z.eq_dec l).
Proof.
  apply NoDup_same_length; [apply dedup_NoDup, Z.eqb_eq | apply NoDup_nodup |].
  intros x. rewrite (dedup_In Z.eqb Z.eqb_eq), nodup_In. tauto.
Qed.

Lemma min_date_row_spec (l : list event) (d : event) :
  min_date_row l = Some d -> In d l /\ forall e, In e l -> (date d <= date e)%Z.
Proof.
  revert d. induction l as [|x l IH]; intros d; simpl; [discriminate |].
  destruct (min_date_row l) as [d'|] eqn:E.
  - destruct (IH d' eq_refl) as (Hin & Hle).
    destruct (Z.ltb_spec (date d') (date x)) as [Hlt|Hge]; intros H; injection H as <-.
    + split; [now right |]. intros e [<-|He]; [lia | now apply Hle].
    + split; [now left |]. intros e [<-|He]; [lia | specialize (Hle e He); lia].
  - intros H. injection H as <-. split; [now left |].
    intros e [<-|He]; [lia |]. destruct l; [destruct He | simpl in E].
    destruct (min_date_row l); [destruct (_ <? _)%Z|]; discriminate.
Qed.

Lemma max_date_row_spec (l : list event) (d : event) :
  max_date_row l = Some d -> In d l /\ forall e, In e l -> (date e <= date d)%Z.
Proof.
  revert d. induction l as [|x l IH]; intros d; simpl; [discriminate |].
  destruct (max_date_row l) as [d'|] eqn:E.
  - destruct (IH d' eq_refl) as (Hin & Hle).
    destruct (Z.ltb_spec (date x) (date d')) as [Hlt|Hge]; intros H; injection H as <-.
    + split; [now right |]. intros e [<-|He]; [lia | now apply Hle].
    + split; [now left |]. intros e [<-|He]; [lia | specialize (Hle e He); lia].
  - intros H. injection H as <-. split; [now left |].
    intros e [<-|He]; [lia |]. destruct l; [destruct He | simpl in E].
    destruct (max_date_row l); [destruct (_ <? _)%Z|]; discriminate.
Qed.

Lemma min_date_row_some (l : list event) : l <> [] -> exists d, min_date_row l = Some d.
Proof.
  destruct l as [|x l]; [congruence |]. intros _. simpl.
  destruct (min_date_row l); [destruct (_ <? _)%Z|]; eexists; reflexivity.
Qed.

Lemma max_date_row_some (l : list event) : l <> [] -> exists d, max_date_row l = Some d.
Proof.
  destruct l as [|x l]; [congruence |]. intros _. simpl.
  destruct (max_date_row l); [destruct (_ <? _)%Z|]; eexists; reflexivity.
Qed.

(** The statistics of the general fallback: the view is non-empty, the
    play count is its number of rows, the unique-artist and unique-song
    counts are the numbers of distinct names, and the date range runs from
    a row with the earliest date to a row with the latest. *)
Theorem general_stats_exact (gc : bool) (q : string) (v : list event) (p : string)
  (env : envelope) (st : list (string * json)) :
  general_result gc q v p = Some env ->
  lookup "stats" (data env) = Some (JObj st) ->
  v <> [] /\
  lookup "total_plays" st = Some (JInt (Z.of_nat (List.length v))) /\
  lookup "unique_artists" st = Some (JInt (Z.of_nat (List.length (nodup string_dec (map artist v))))) /\
  lookup "unique_songs" st = Some (JInt (Z.of_nat (List.length (nodup string_dec (map track v))))) /\
  (exists d0 d1, In d0 v /\ In d1 v /\
     (forall e, In e v -> (date d0 <= date e /\ date e <= date d1)%Z) /\
     lookup "date_range" st = Some (JStr (date_str d0 ++ " to " ++ date_str d1))).
Proof.
  unfold general_result. intros H Hl.
  destruct v as [|e0 v0]; [injection H as <-; discriminate |].
  destruct (min_date_row (e0 :: v0)) as [d0|] eqn:Hd0; [| discriminate].
  destruct (max_date_row (e0 :: v0)) as [d1|] eqn:Hd1; [| discriminate].
  destruct (extract_top_genres gc (e0 :: v0) 5) as [tg|]; [| discriminate].
  injection H as <-. lk_in Hl. injection Hl as <-. lk.
  split; [discriminate |].
  split; [reflexivity |].
  split; [rewrite nunique_distinct; reflexivity |].
  split; [rewrite nunique_distinct; reflexivity |].
  destruct (min_date_row_spec _ _ Hd0) as (Hi0 & Hle0).
  destruct (max_date_row_spec _ _ Hd1) as (Hi1 & Hle1).
  exists d0, d1. split; [exact Hi0 |]. split; [exact Hi1 |].
  split; [intros e He; split; auto | reflexivity].
Qed.

Lemma extract_top_genres_top (gc : bool) (v : list event) (n : nat) (kvs : list (string * json)) :
  extract_top_genres gc v n = Some (JObj kvs) ->
  (List.length kvs <= n)%nat /\ NoDup (map fst kvs) /\
  (forall k x, In (k, x) kvs -> x = JInt (Z.of_nat (count_occ string_dec (genre_labels v) k))) /\
  (forall k y, In k (map fst kvs) -> In y (genre_labels v) -> ~ In y (map fst kvs) ->
     (count_occ string_dec (genre_labels v) y <= count_occ string_dec (genre_labels v) k)%nat).
Proof.
  unfold extract_top_genres. intros H.
  assert (Hnil : kvs = [] -> (List.length kvs <= n)%nat /\ NoDup (map fst kvs) /\
      (forall k x, In (k, x) kvs -> x = JInt (Z.of_nat (count_occ string_dec (genre_labels v) k))) /\
      (forall k y, In k (map fst kvs) -> In y (genre_labels v) -> ~ In y (map fst kvs) ->
        (count_occ string_dec (genre_labels v) y <= count_occ string_dec (genre_labels v) k)%nat)).
  { intros ->. simpl. split; [lia |]. split; [constructor |]. split; intros; contradiction. }
  destruct v as [|e v]; [injection H as H; subst kvs; apply Hnil; reflexivity |].
  destruct gc; cbn [negb] in H; [| injection H as H; subst kvs; apply Hnil; reflexivity].
  rewrite gather_genres_spec in H. destruct (genres_nan (e :: v)); [discriminate |].
  destruct (genre_labels (e :: v)) as [|g gs] eqn:G; [injection H as H; subst kvs; apply Hnil; reflexivity |].
  apply (f_equal (fun o => match o with Some j => j | None => JObj [] end)) in H.
  cbv beta iota in H. now apply counts_dict_top.
Qed.

(** The top lists of the general fallback: at most ten artists and ten
    songs, at most five genres, each key distinct and shown with its exact
    number of rows (genre labels for the genres), and no artist, song or
    genre left out of a list is more frequent than one listed in it. *)
Theorem general_top_lists (gc : bool) (q : string) (v : list event) (p : string) (env : envelope) :
  general_result gc q v p = Some env ->
  (forall kvs, lookup "top_artists" (data env) = Some (JObj kvs) ->
     (List.length kvs <= 10)%nat /\ NoDup (map fst kvs) /\
     (forall k x, In (k, x) kvs -> x = JInt (Z.of_nat (count_occ string_dec (map artist v) k))) /\
     (forall k y, In k (map fst kvs) -> In y (map artist v) -> ~ In y (map fst kvs) ->
        (count_occ string_dec (map artist v) y <= count_occ string_dec (map artist v) k)%nat)) /\
  (forall kvs, lookup "top_songs" (data env) = Some (JObj kvs) ->
     (List.length kvs <= 10)%nat /\ NoDup (map fst kvs) /\
     (forall k x, In (k, x) kvs -> x = JInt (Z.of_nat (count_occ string_dec (map track v) k))) /\
     (forall k y, In k (map fst kvs) -> In y (map track v) -> ~ In y (map fst kvs) ->
        (count_occ string_dec (map track v) y <= count_occ string_dec (map track v) k)%nat)) /\
  (forall kvs, lookup "top_genres" (data env) = Some (JObj kvs) ->
     (List.length kvs <= 5)%nat /\ NoDup (map fst kvs) /\
     (forall k x, In (k, x) kvs -> x = JInt (Z.of_nat (count_occ string_dec (genre_labels v) k))) /\
     (forall k y, In k (map fst kvs) -> In y (genre_labels v) -> ~ In y (map fst kvs) ->
        (count_occ string_dec (genre_labels v) y <= count_occ string_dec (genre_labels v) k)%nat)).
Proof.
  unfold general_result. intros H.
  destruct v as [|e0 v0]; [injection H as <-; split; [|split]; intros kvs Hl; discriminate |].
  destruct (min_date_row (e0 :: v0)) as [d0|]; [| discriminate].
  destruct (max_date_row (e0 :: v0)) as [d1|]; [| discriminate].
  destruct (extract_top_genres gc (e0 :: v0) 5) as [tg|] eqn:Etg; [| discriminate].
  injection H as <-.
  split; [| split]; intros kvs Hl; lk_in Hl;
    apply (f_equal (fun o => match o with Some j => j | None => JObj [] end)) in Hl;
    cbv beta iota in Hl.
  - now apply counts_dict_top.
  - now apply counts_dict_top.
  - subst tg. exact (extract_top_genres_top gc _ _ _ Etg).
Qed.

(** ** [groupby(...).size().idxmax()] *)

Lemma filter_eqb_count (l : list Z) (k : Z) :
  List.length (filter (Z.eqb k) l) = count_occ Z.eq_dec l k.
Proof.
  induction l as [|x l IH]; simpl; [reflexivity |].
  destruct (Z.eqb_spec k x), (Z.eq_dec x k); simpl; try congruence; now rewrite IH.
Qed.

Lemma filter_strb_count (l : list string) (k : string) :
  List.length (filter (String.eqb k) l) = count_occ string_dec l k.
Proof.
  induction l as [|x l IH]; simpl; [reflexivity |].
  destruct (String.eqb_spec k x), (string_dec x k); simpl; try congruence; now rewrite IH.
Qed.

Lemma insert_by_perm {A} (lt : A -> A -> bool) (a : A) (l : list A) :
  Permutation (insert_by lt a l) (a :: l).
Proof.
  induction l as [|y l IH]; simpl; [reflexivity |].
  destruct (lt a y); [reflexivity |]. rewrite IH. apply perm_swap.
Qed.

Lemma sort_by_perm {A} (lt : A -> A -> bool) (l : list A) : Permutation (sort_by lt l) l.
Proof.
  unfold sort_by. induction l as [|a l IH]; simpl; [reflexivity |].
  rewrite insert_by_perm. now apply perm_skip.
Qed.

Section Idxmax.
Context {A : Type} (eqb lt : A -> A -> bool).
Hypothesis eqb_spec : forall a b, eqb a b = true <-> a = b.
Variable l : list A.

Local Abbreviation cnt k := (List.length (filter (eqb k) l)).
Local Abbreviation step := (fun best k => match best with
                          | None => Some k
                          | Some b => if (cnt b <? cnt k)%nat then Some k else Some b
                          end).

Lemma fold_pick_max (ks : list A) (b m : A) :
  fold_left step ks (Some b) = Some m ->
  (m = b \/ In m ks) /\ (forall x, In x (b :: ks) -> (cnt x <= cnt m)%nat).
Proof.
  revert b. induction ks as [|k ks IH]; intros b H; cbn [fold_left] in H.
  - injection H as ->. split; [now left |]. intros x [<-|[]]; lia.
  - destruct (Nat.ltb_spec (cnt b) (cnt k)) as [Hlt|Hge].
    + destruct (IH k H) as (Hm & Hmax).
      split; [right; destruct Hm as [->|Hm]; [now left | now right] |].
      assert (Hk : (cnt k <= cnt m)%nat) by (apply Hmax; now left).
      intros x [<-|Hx]; [lia | now apply Hmax].
    + destruct (IH b H) as (Hm & Hmax).
      split; [destruct Hm as [->|Hm]; [now left | right; now right] |].
      assert (Hb : (cnt b <= cnt m)%nat) by (apply Hmax; now left).
      intros x [<-|[<-|Hx]]; [exact Hb | lia | apply Hmax; now right].
Qed.

Lemma idxmax_max (m : A) :
  idxmax eqb lt l = Some m ->
  In m l /\ (forall x, In x l -> (cnt x <= cnt m)%nat).
Proof.
  unfold idxmax. cbv beta zeta.
  assert (Hin : forall x, In x (sort_by lt (dedup eqb l)) <-> In x l)
    by (intros x; rewrite sort_by_In; now apply dedup_In).
  destruct (sort_by lt (dedup eqb l)) as [|b ks] eqn:E; simpl; [discriminate |].
  intros H. destruct (fold_pick_max ks b m H) as (Hm & Hmax).
  split; [apply Hin; destruct Hm as [->|Hm]; [now left | now right] |].
  intros x Hx. apply Hmax. now apply Hin.
Qed.

Variable R : A -> A -> Prop.
Hypothesis R_irrefl : forall a, ~ R a a.
Hypothesis R_trans : forall a b c, R a b -> R b c -> R a c.

(** Over keys in increasing order, the fold keeps the first key of
    maximal count. *)
Lemma fold_pick (ks : list A) (b m : A) :
  StronglySorted R (b :: ks) ->
  fold_left step ks (Some b) = Some m ->
  (m = b \/ In m ks) /\ (forall x, In x (b :: ks) -> (cnt x <= cnt m)%nat) /\
  (forall x, In x (b :: ks) -> cnt x = cnt m -> x = m \/ R m x).
Proof.
  revert b. induction ks as [|k ks IH]; intros b Hs H; cbn [fold_left] in H.
  - injection H as ->. split; [now left |]. split; [intros x [<-|[]]; lia |].
    intros x [<-|[]] _. now left.
  - inversion Hs as [|? ? Hs' Hf]; subst. rewrite Forall_forall in Hf.
    destruct (Nat.ltb_spec (cnt b) (cnt k)) as [Hlt|Hge].
    + destruct (IH k Hs' H) as (Hm & Hmax & Htie).
      split; [right; destruct Hm as [->|Hm]; [now left | now right] |].
      assert (Hk : (cnt k <= cnt m)%nat) by (apply Hmax; now left).
      split.
      * intros x [<-|Hx]; [lia | now apply Hmax].
      * intros x [<-|Hx] Hc; [lia | now apply Htie].
    + inversion Hs' as [|? ? Hs'' Hf']; subst. rewrite Forall_forall in Hf'.
      assert (Hbs : StronglySorted R (b :: ks)).
      { constructor; [exact Hs'' |]. apply Forall_forall. intros y Hy. apply Hf. now right. }
      destruct (IH b Hbs H) as (Hm & Hmax & Htie).
      split; [destruct Hm as [->|Hm]; [now left | right; now right] |].
      assert (Hb : (cnt b <= cnt m)%nat) by (apply Hmax; now left).
      split.
      * intros x [<-|[<-|Hx]]; [exact Hb | lia | apply Hmax; now right].
      * intros x [<-|[<-|Hx]] Hc.
        -- apply Htie; [now left | exact Hc].
        -- destruct (Htie b (or_introl eq_refl) ltac:(lia)) as [Hbm|Hmb].
           ++ subst m. right. apply Hf. now left.
           ++ exfalso. destruct Hm as [->|Hm]; [exact (R_irrefl _ Hmb) |].
              apply (R_irrefl b). apply (R_trans _ m); [apply Hf; now right | exact Hmb].
        -- apply Htie; [now right | exact Hc].
Qed.

Lemma idxmax_spec (m : A) :
  StronglySorted R (sort_by lt (dedup eqb l)) ->
  idxmax eqb lt l = Some m ->
  In m l /\ (forall x, In x l -> (cnt x <= cnt m)%nat) /\
  (forall x, In x l -> cnt x = cnt m -> x = m \/ R m x).
Proof.
  unfold idxmax. cbv beta zeta.
  assert (Hin : forall x, In x (sort_by lt (dedup eqb l)) <-> In x l)
    by (intros x; rewrite sort_by_In; now apply dedup_In).
  destruct (sort_by lt (dedup eqb l)) as [|b ks] eqn:E; simpl; [discriminate |].
  intros Hs H. destruct (fold_pick ks b m Hs H) as (Hm & Hmax & Htie).
  split; [apply Hin; destruct Hm as [->|Hm]; [now left | now right] |].
  split; intros x Hx; [apply Hmax | apply Htie]; now apply Hin.
Qed.

End Idxmax.

Lemma idxmax_some {A} (eqb lt : A -> A -> bool) (Heq : forall a b, eqb a b = true <-> a = b)
  (l : list A) : l <> [] -> exists m, idxmax eqb lt l = Some m.
Proof.
  intros Hl. destruct l as [|a l']; [congruence |].
  assert (Ha : In a (sort_by lt (dedup eqb (a :: l'))))
    by (rewrite sort_by_In; apply dedup_In; [exact Heq | now left]).
  unfold idxmax. cbv beta zeta.
  destruct (sort_by lt (dedup eqb (a :: l'))) as [|b ks]; [destruct Ha |].
  simpl. clear Ha. revert b. induction ks as [|k ks IH]; intros b; simpl; [eexists; reflexivity |].
  destruct (_ <? _)%nat; apply IH.
Qed.

Lemma sorted_le_nodup_lt (l : list Z) :
  StronglySorted Z.le l -> NoDup l -> StronglySorted Z.lt l.
Proof.
  induction l as [|x l IH]; intros Hs Hnd; [constructor |].
  inversion Hs as [|? ? Hs' Hf]; inversion Hnd as [|? ? Hx Hnd']; subst.
  constructor; [now apply IH |].
  rewrite Forall_forall in *. intros y Hy.
  specialize (Hf y Hy). assert (x <> y) by (intros ->; contradiction). lia.
Qed.

Lemma hours_sorted (l : list Z) : StronglySorted Z.lt (sort_by Z.ltb (dedup Z.eqb l)).
Proof.
  apply sorted_le_nodup_lt; [apply sort_by_sorted |].
  eapply Permutation_NoDup; [symmetry; apply sort_by_perm |].
  apply dedup_NoDup, Z.eqb_eq.
Qed.

(** The peak listening hour of a non-empty view is the hour of one of its
    rows, no hour has more rows, and among the hours with as many rows it
    is the earliest; the peak listening day is the day name of one of its
    rows and no day name has more rows. *)
Theorem peak_hour_day_most_active (v : list event) :
  v <> [] ->
  In (peak_hour v) (map (fun e => hh (ts e)) v) /\
  (forall e, In e v ->
     (count_occ Z.eq_dec (map (fun e => hh (ts e)) v) (hh (ts e))
        <= count_occ Z.eq_dec (map (fun e => hh (ts e)) v) (peak_hour v))%nat /\
     (count_occ Z.eq_dec (map (fun e => hh (ts e)) v) (hh (ts e))
        = count_occ Z.eq_dec (map (fun e => hh (ts e)) v) (peak_hour v) ->
      (peak_hour v <= hh (ts e))%Z)) /\
  In (peak_day v) (map day_name v) /\
  (forall e, In e v ->
     (count_occ string_dec (map day_name v) (day_name e)
        <= count_occ string_dec (map day_name v) (peak_day v))%nat).
Proof.
  intros Hv.
  assert (Hh : map (fun e => hh (ts e)) v <> []) by (destruct v; [congruence | discriminate]).
  assert (Hd : map day_name v <> []) by (destruct v; [congruence | discriminate]).
  destruct (idxmax_some Z.eqb Z.ltb Z.eqb_eq _ Hh) as (h & Eh).
  destruct (idxmax_some String.eqb String.ltb String.eqb_eq _ Hd) as (d & Ed).
  unfold peak_hour, peak_day. rewrite Eh, Ed.
  destruct (idxmax_spec Z.eqb Z.ltb Z.eqb_eq _ Z.lt Z.lt_irrefl Z.lt_trans h
              (hours_sorted _) Eh) as (Hin & Hmax & Htie).
  destruct (idxmax_max String.eqb String.ltb String.eqb_eq _ d Ed) as (Hdin & Hdmax).
  split; [exact Hin |]. split.
  - intros e He. assert (Hx : In (hh (ts e)) (map (fun e => hh (ts e)) v)) by exact (in_map (fun e => hh (ts e)) v e He).
    rewrite <- !filter_eqb_count.
    split; [now apply Hmax |].
    intros Hc. destruct (Htie _ Hx Hc) as [->|Hlt]; lia.
  - split; [exact Hdin |]. intros e He.
    rewrite <- !filter_strb_count. apply Hdmax. now apply in_map.
Qed.

Lemma favorite_artist_is_most_played_witness :
  exists env, get_favorite_artist table_blue "All time" = Some env /\
  lookup "top_artists" (data env) = Some (JObj [("Adele", JInt 2%Z)]) /\
  In "Adele" (map artist table_blue) /\
  2%Z = Z.of_nat (count_occ string_dec (map artist table_blue) "Adele") /\
  (forall e, In e table_blue ->
     (Z.of_nat (count_occ string_dec (map artist table_blue) (artist e)) <= 2)%Z).
Proof.
  assert (H1 : exists env, get_favorite_artist table_blue "All time" = Some env)
    by (eexists; reflexivity).
  destruct H1 as [env H1].
  assert (H2 : lookup "top_artists" (data env) = Some (JObj [("Adele", JInt 2%Z)])).
  { pose proof H1 as E. vm_compute in E. injection E as <-. reflexivity. }
  exists env. exact (conj H1 (conj H2 (favorite_artist_is_most_played _ _ _ _ _ H1 H2))).
Defined.

Lemma favorite_song_is_most_played_witness :
  exists env, get_favorite_song table_blue "All time" = Some env /\
  lookup "top_songs" (data env) = Some (JObj [("Blue", JInt 2%Z)]) /\
  lookup "artist" (data env) = Some (JStr "Adele") /\
  2%Z = Z.of_nat (count_occ string_dec (map track table_blue) "Blue") /\
  (forall e, In e table_blue ->
     (Z.of_nat (count_occ string_dec (map track table_blue) (track e)) <= 2)%Z) /\
  exists pre e post, table_blue = app pre (e :: post) /\ track e = "Blue" /\ artist e = "Adele" /\
    (forall x, In x pre -> track x <> "Blue").
Proof.
  assert (H1 : exists env, get_favorite_song table_blue "All time" = Some env)
    by (eexists; reflexivity).
  destruct H1 as [env H1].
  assert (H2 : lookup "top_songs" (data env) = Some (JObj [("Blue", JInt 2%Z)])).
  { pose proof H1 as E. vm_compute in E. injection E as <-. reflexivity. }
  assert (H3 : lookup "artist" (data env) = Some (JStr "Adele")).
  { pose proof H1 as E. vm_compute in E. injection E as <-. reflexivity. }
  exists env.
  exact (conj H1 (conj H2 (conj H3 (favorite_song_is_most_played _ _ _ _ _ _ H1 H2 H3)))).
Defined.

Lemma favorite_genre_is_most_counted_witness :
  exists env kvs, get_favorite_genre true table_blue "All time" = Some env /\
  lookup "top_genre" (data env) = Some (JStr "pop") /\
  lookup "track_count" (data env) = Some (JInt 2%Z) /\
  lookup "top_genres" (data env) = Some (JObj kvs) /\
  In "pop" (genre_labels table_blue) /\
  2%Z = Z.of_nat (count_occ string_dec (genre_labels table_blue) "pop") /\
  (forall g', In g' (genre_labels table_blue) ->
     (Z.of_nat (count_occ string_dec (genre_labels table_blue) g') <= 2)%Z) /\
  (List.length kvs <= 5)%nat /\ NoDup (map fst kvs) /\
  (forall k x, In (k, x) kvs ->
     x = JInt (Z.of_nat (count_occ string_dec (genre_labels table_blue) k))) /\
  (forall k y, In k (map fst kvs) -> In y (genre_labels table_blue) -> ~ In y (map fst kvs) ->
     (count_occ string_dec (genre_labels table_blue) y
        <= count_occ string_dec (genre_labels table_blue) k)%nat).
Proof.
  assert (H1 : exists env, get_favorite_genre true table_blue "All time" = Some env)
    by (eexists; reflexivity).
  destruct H1 as [env H1].
  assert (H2 : lookup "top_genre" (data env) = Some (JStr "pop")).
  { pose proof H1 as E. vm_compute in E. injection E as <-. reflexivity. }
  assert (H3 : lookup "track_count" (data env) = Some (JInt 2%Z)).
  { pose proof H1 as E. vm_compute in E. injection E as <-. reflexivity. }
  assert (H4 : lookup "top_genres" (data env)
               = Some (JObj [("pop", JInt 2%Z); ("hip hop", JInt 1%Z); ("rap", JInt 1%Z)])).
  { pose proof H1 as E. vm_compute in E. injection E as <-. reflexivity. }
  exists env, [("pop", JInt 2%Z); ("hip hop", JInt 1%Z); ("rap", JInt 1%Z)].
  exact (conj H1 (conj H2 (conj H3 (conj H4
           (favorite_genre_is_most_counted _ _ _ _ _ _ _ H1 H2 H3 H4))))).
Defined.

Lemma general_stats_exact_witness :
  exists env st, general_result true "q" table_blue "All time" = Some env /\
  lookup "stats" (data env) = Some (JObj st) /\
  table_blue <> [] /\
  lookup "total_plays" st = Some (JInt (Z.of_nat (List.length table_blue))) /\
  lookup "unique_artists" st
    = Some (JInt (Z.of_nat (List.length (nodup string_dec (map artist table_blue))))) /\
  lookup "unique_songs" st
    = Some (JInt (Z.of_nat (List.length (nodup string_dec (map track table_blue))))) /\
  (exists d0 d1, In d0 table_blue /\ In d1 table_blue /\
     (forall e, In e table_blue -> (date d0 <= date e /\ date e <= date d1)%Z) /\
     lookup "date_range" st = Some (JStr (date_str d0 ++ " to " ++ date_str d1))).
Proof.
  assert (H1 : exists env, general_result true "q" table_blue "All time" = Some env)
    by (eexists; reflexivity).
  destruct H1 as [env H1].
  assert (H2 : exists st, lookup "stats" (data env) = Some (JObj st)).
  { pose proof H1 as E. vm_compute in E. injection E as <-. eexists; reflexivity. }
  destruct H2 as [st H2].
  exists env, st. exact (conj H1 (conj H2 (general_stats_exact _ _ _ _ _ _ H1 H2))).
Defined.

Lemma general_top_lists_witness :
  exists env, general_result true "q" table_blue "All time" = Some env /\
  lookup "top_artists" (data env) = Some (JObj [("Adele", JInt 2%Z); ("J. Cole", JInt 1%Z)]) /\
  (List.length [("Adele", JInt 2%Z); ("J. Cole", JInt 1%Z)] <= 10)%nat /\
  (forall k x, In (k, x) [("Adele", JInt 2%Z); ("J. Cole", JInt 1%Z)] ->
     x = JInt (Z.of_nat (count_occ string_dec (map artist table_blue) k))).
Proof.
  assert (H1 : exists env, general_result true "q" table_blue "All time" = Some env)
    by (eexists; reflexivity).
  destruct H1 as [env H1].
  assert (H2 : lookup "top_artists" (data env)
               = Some (JObj [("Adele", JInt 2%Z); ("J. Cole", JInt 1%Z)])).
  { pose proof H1 as E. vm_compute in E. injection E as <-. reflexivity. }
  exists env. split; [exact H1 | split; [exact H2 |]].
  destruct (general_top_lists _ _ _ _ _ H1) as [Ha _].
  destruct (Ha _ H2) as (Hlen & _ & Hcnt & _).
  exact (conj Hlen Hcnt).
Defined.

Lemma peak_hour_day_most_active_witness :
  table_blue <> [] /\
  In (peak_hour table_blue) (map (fun e => hh (ts e)) table_blue) /\
  (forall e, In e table_blue ->
     (count_occ Z.eq_dec (map (fun e => hh (ts e)) table_blue) (hh (ts e))
        <= count_occ Z.eq_dec (map (fun e => hh (ts e)) table_blue) (peak_hour table_blue))%nat /\
     (count_occ Z.eq_dec (map (fun e => hh (ts e)) table_blue) (hh (ts e))
        = count_occ Z.eq_dec (map (fun e => hh (ts e)) table_blue) (peak_hour table_blue) ->
      (peak_hour table_blue <= hh (ts e))%Z)) /\
  In (peak_day table_blue) (map day_name table_blue) /\
  (forall e, In e table_blue ->
     (count_occ string_dec (map day_name table_blue) (day_name e)
        <= count_occ string_dec (map day_name table_blue) (peak_day table_blue))%nat).
Proof.
  assert (H : table_blue <> []) by discriminate.
  exact (conj H (peak_hour_day_most_active table_blue H)).
Defined.

(** ** Earliest and latest rows: [idxmin] and [idxmax] of [ts] *)

Lemma first_min_none (l : list event) : first_min l = None -> l = [].
Proof.
  destruct l as [|x r]; [reflexivity |]. intros H.
  destruct (first_min_In (x :: r)) as (e & He & _); [discriminate | congruence].
Qed.

Lemma first_max_none (l : list event) : first_max l = None -> l = [].
Proof.
  destruct l as [|x r]; [reflexivity |]. intros H.
  destruct (first_max_In (x :: r)) as (e & He & _); [discriminate | congruence].
Qed.

Lemma first_min_spec (l : list event) (e : event) :
  first_min l = Some e ->
  exists pre post, l = app pre (e :: post) /\
    (forall x, In x l -> (ts_key (ts e) <= ts_key (ts x))%Z) /\
    (forall x, In x pre -> (ts_key (ts e) < ts_key (ts x))%Z).
Proof.
  revert e. induction l as [|y r IH]; intros e; simpl; [discriminate |].
  destruct (first_min r) as [e'|] eqn:E.
  - destruct (IH e' eq_refl) as (pre & post & Hr & Hmin & Hpre).
    destruct (Z.ltb_spec (ts_key (ts e')) (ts_key (ts y))) as [Hlt|Hge]; intros H;
      injection H as <-.
    + exists (y :: pre), post. split; [now rewrite Hr |]. split.
      * intros x [<-|Hx]; [lia | now apply Hmin].
      * intros x [<-|Hx]; [exact Hlt | now apply Hpre].
    + exists [], r. split; [reflexivity |]. split; [| intros x []].
      intros x [<-|Hx]; [lia |]. specialize (Hmin x Hx). lia.
  - apply first_min_none in E. subst r. intros H. injection H as <-.
    exists [], []. split; [reflexivity |]. split; [| intros x []].
    intros x [<-|[]]. lia.
Qed.

Lemma first_max_spec (l : list event) (e : event) :
  first_max l = Some e ->
  exists pre post, l = app pre (e :: post) /\
    (forall x, In x l -> (ts_key (ts x) <= ts_key (ts e))%Z) /\
    (forall x, In x pre -> (ts_key (ts x) < ts_key (ts e))%Z).
Proof.
  revert e. induction l as [|y r IH]; intros e; simpl; [discriminate |].
  destruct (first_max r) as [e'|] eqn:E.
  - destruct (IH e' eq_refl) as (pre & post & Hr & Hmax & Hpre).
    destruct (Z.ltb_spec (ts_key (ts y)) (ts_key (ts e'))) as [Hlt|Hge]; intros H;
      injection H as <-.
    + exists (y :: pre), post. split; [now rewrite Hr |]. split.
      * intros x [<-|Hx]; [lia | now apply Hmax].
      * intros x [<-|Hx]; [exact Hlt | now apply Hpre].
    + exists [], r. split; [reflexivity |]. split; [| intros x []].
      intros x [<-|Hx]; [lia |]. specialize (Hmax x Hx). lia.
  - apply first_max_none in E. subst r. intros H. injection H as <-.
    exists [], []. split; [reflexivity |]. split; [| intros x []].
    intros x [<-|[]]. lia.
Qed.

Lemma filter_split {A} (f : A -> bool) (l pre' post' : list A) (e : A) :
  filter f l = app pre' (e :: post') ->
  exists pre post, l = app pre (e :: post) /\ filter f pre = pre' /\ f e = true.
Proof.
  revert pre'. induction l as [|y l IH]; intros pre'; simpl.
  - destruct pre'; discriminate.
  - destruct (f y) eqn:Ey; intros H.
    + destruct pre' as [|z pre'']; simpl in H; injection H as H1 H2.
      * subst y. exists [], l. split; [reflexivity |]. split; [reflexivity | exact Ey].
      * subst z. destruct (IH pre'' H2) as (pre & post & -> & Hf & He).
        exists (y :: pre), post. split; [reflexivity |]. split; [| exact He].
        simpl. now rewrite Ey, Hf.
    + destruct (IH pre' H) as (pre & post & -> & Hf & He).
      exists (y :: pre), post. split; [reflexivity |]. split; [| exact He].
      simpl. now rewrite Ey.
Qed.

(** The first song of a genre: the call never raises (a NaN genres cell
    does not match, [na=False]); when the table has no genres column it
    reports only the error "No genre data available"; with no row of the
    view whose genres contain the name (case-insensitively) it reports
    only the error "No songs found for genre <name>"; otherwise it reports
    the song, artist, date, time and timestamp of a matching row [e] with
    the earliest timestamp among the matching rows, every matching row
    before [e] being strictly later. *)
Theorem first_song_by_genre_earliest (gc : bool) (v : list event) (p g : string) :
  exists env, get_first_song_by_genre gc v p g = Some env /\
  (gc = false /\ data env = [("error", JStr "No genre data available")]
   \/
   gc = true /\ (forall x, In x v -> genre_contains g x = false) /\
   data env = [("error", JStr ("No songs found for genre " ++ g))]
   \/
   gc = true /\
   exists pre e post, v = app pre (e :: post) /\ genre_contains g e = true /\
     (forall x, In x v -> genre_contains g x = true -> (ts_key (ts e) <= ts_key (ts x))%Z) /\
     (forall x, In x pre -> genre_contains g x = true -> (ts_key (ts e) < ts_key (ts x))%Z) /\
     data env = [("genre", JStr g); ("song", JStr (track e)); ("artist", JStr (artist e));
                 ("date", JStr (fmt_BdY (ts e))); ("time", JStr (fmt_HM (ts e)));
                 ("timestamp", JStr (isoformat (ts e)))]).
Proof.
  unfold get_first_song_by_genre, get_edge_song_by_genre.
  destruct gc; [cbn [negb] | eexists; split; [reflexivity | left; split; reflexivity]].
  destruct (filter (genre_contains g) v) as [|y r] eqn:F.
  - eexists. split; [reflexivity |]. right. left. split; [reflexivity |]. split; [| reflexivity].
    intros x Hx. destruct (genre_contains g x) eqn:Ex; [| reflexivity].
    assert (Hin : In x (filter (genre_contains g) v)) by (apply filter_In; auto).
    rewrite F in Hin. destruct Hin.
  - destruct (first_min_In (y :: r)) as (e & He & _); [discriminate |]. rewrite He.
    eexists. split; [reflexivity |]. right. right. split; [reflexivity |].
    destruct (first_min_spec _ _ He) as (pre' & post' & Hs & Hmin & Hpre').
    rewrite <- F in Hs. destruct (filter_split _ _ _ _ _ Hs) as (pre & post & Hv & Hf & Hg).
    exists pre, e, post. split; [exact Hv |]. split; [exact Hg |]. split; [| split; [| reflexivity]].
    + intros x Hx Hgx. apply Hmin. rewrite <- F. now apply filter_In.
    + intros x Hx Hgx. apply Hpre'. rewrite <- Hf. now apply filter_In.
Qed.

(** The last song of a genre: the call never raises (a NaN genres cell
    does not match, [na=False]); when the table has no genres column it
    reports only the error "No genre data available"; with no row of the
    view whose genres contain the name (case-insensitively) it reports
    only the error "No songs found for genre <name>"; otherwise it reports
    the song, artist, date, time and timestamp of a matching row [e] with
    the latest timestamp among the matching rows, every matching row
    before [e] being strictly earlier. *)
Theorem last_song_by_genre_latest (gc : bool) (v : list event) (p g : string) :
  exists env, get_last_song_by_genre gc v p g = Some env /\
  (gc = false /\ data env = [("error", JStr "No genre data available")]
   \/
   gc = true /\ (forall x, In x v -> genre_contains g x = false) /\
   data env = [("error", JStr ("No songs found for genre " ++ g))]
   \/
   gc = true /\
   exists pre e post, v = app pre (e :: post) /\ genre_contains g e = true /\
     (forall x, In x v -> genre_contains g x = true -> (ts_key (ts x) <= ts_key (ts e))%Z) /\
     (forall x, In x pre -> genre_contains g x = true -> (ts_key (ts x) < ts_key (ts e))%Z) /\
     data env = [("genre", JStr g); ("song", JStr (track e)); ("artist", JStr (artist e));
                 ("date", JStr (fmt_BdY (ts e))); ("time", JStr (fmt_HM (ts e)));
                 ("timestamp", JStr (isoformat (ts e)))]).
Proof.
  unfold get_last_song_by_genre, get_edge_song_by_genre.
  destruct gc; [cbn [negb] | eexists; split; [reflexivity | left; split; reflexivity]].
  destruct (filter (genre_contains g) v) as [|y r] eqn:F.
  - eexists. split; [reflexivity |]. right. left. split; [reflexivity |]. split; [| reflexivity].
    intros x Hx. destruct (genre_contains g x) eqn:Ex; [| reflexivity].
    assert (Hin : In x (filter (genre_contains g) v)) by (apply filter_In; auto).
    rewrite F in Hin. destruct Hin.
  - destruct (first_max_In (y :: r)) as (e & He & _); [discriminate |]. rewrite He.
    eexists. split; [reflexivity |]. right. right. split; [reflexivity |].
    destruct (first_max_spec _ _ He) as (pre' & post' & Hs & Hmax & Hpre').
    rewrite <- F in Hs. destruct (filter_split _ _ _ _ _ Hs) as (pre & post & Hv & Hf & Hg).
    exists pre, e, post. split; [exact Hv |]. split; [exact Hg |]. split; [| split; [| reflexivity]].
    + intros x Hx Hgx. apply Hmax. rewrite <- F. now apply filter_In.
    + intros x Hx Hgx. apply Hpre'. rewrite <- Hf. now apply filter_In.
Qed.

(** The first song of an artist: whenever the call returns, it has
    selected the artist's rows [ad] ([select_artist_rows]); with none it
    reports only an error, otherwise the song, date, time and timestamp of
    a row [e] of [ad] with the earliest timestamp there (every row of [ad]
    before [e] being strictly later) and the artist of the first row of
    [ad]. *)
Theorem first_song_by_artist_earliest (v : list event) (p a : string) (env : envelope) :
  get_first_song_by_artist v p a = Some env ->
  exists ad, select_artist_rows v a = Some ad /\
  (ad = [] /\ data env = [("error", JStr ("No songs found for " ++ a))]
   \/
   exists e0 rest pre e post, ad = e0 :: rest /\ ad = app pre (e :: post) /\
     (forall x, In x ad -> (ts_key (ts e) <= ts_key (ts x))%Z) /\
     (forall x, In x pre -> (ts_key (ts e) < ts_key (ts x))%Z) /\
     data env = [("artist", JStr (artist e0)); ("song", JStr (track e));
                 ("date", JStr (fmt_BdY (ts e))); ("time", JStr (fmt_HM (ts e)));
                 ("timestamp", JStr (isoformat (ts e)))]).
Proof.
  unfold get_first_song_by_artist, get_edge_song_by_artist.
  destruct (select_artist_rows v a) as [ad|]; [| discriminate].
  intros H. exists ad. split; [reflexivity |].
  destruct ad as [|e0 rest].
  - injection H as <-. left. split; reflexivity.
  - destruct (first_min (e0 :: rest)) as [e|] eqn:E; [| discriminate].
    injection H as <-. right.
    destruct (first_min_spec _ _ E) as (pre & post & Hs & Hmin & Hpre).
    exists e0, rest, pre, e, post. repeat split; assumption.
Qed.

(** The last song of an artist: as for the first, with a row [e] of the
    selected rows with the latest timestamp there, every selected row
    before [e] being strictly earlier. *)
Theorem last_song_by_artist_latest (v : list event) (p a : string) (env : envelope) :
  get_last_song_by_artist v p a = Some env ->
  exists ad, select_artist_rows v a = Some ad /\
  (ad = [] /\ data env = [("error", JStr ("No songs found for " ++ a))]
   \/
   exists e0 rest pre e post, ad = e0 :: rest /\ ad = app pre (e :: post) /\
     (forall x, In x ad -> (ts_key (ts x) <= ts_key (ts e))%Z) /\
     (forall x, In x pre -> (ts_key (ts x) < ts_key (ts e))%Z) /\
     data env = [("artist", JStr (artist e0)); ("song", JStr (track e));
                 ("date", JStr (fmt_BdY (ts e))); ("time", JStr (fmt_HM (ts e)));
                 ("timestamp", JStr (isoformat (ts e)))]).
Proof.
  unfold get_last_song_by_artist, get_edge_song_by_artist.
  destruct (select_artist_rows v a) as [ad|]; [| discriminate].
  intros H. exists ad. split; [reflexivity |].
  destruct ad as [|e0 rest].
  - injection H as <-. left. split; reflexivity.
  - destruct (first_max (e0 :: rest)) as [e|] eqn:E; [| discriminate].
    injection H as <-. right.
    destruct (first_max_spec _ _ E) as (pre & post & Hs & Hmax & Hpre).
    exists e0, rest, pre, e, post. repeat split; assumption.
Qed.

(** [_query_song_by_artist] never raises and leaves the table as it is.
    The matches are the rows of the whole table whose track and artist
    equal the song and artist ignoring case.  With none, the payload is
    only an error and there is no period; otherwise the song and artist
    reported are those of the first match, the play count is the number
    of matches, and the first and last listens come from matches with the
    earliest and the latest timestamp. *)
Theorem song_by_artist_lookup (s a : string) (st : store) :
  let matches := filter (fun e => String.eqb (lower (track e)) (lower s) &&
                                  String.eqb (lower (artist e)) (lower a)) st in
  exists env, query_song_by_artist s a st = Some (env, st) /\
  analysis_type env = "song_by_artist" /\
  ((matches = [] /\ period_info env = None /\ exists msg, data env = [("error", JStr msg)])
   \/
   exists m0 rest f l, matches = m0 :: rest /\ In f matches /\ In l matches /\
     (forall x, In x matches -> (ts_key (ts f) <= ts_key (ts x) <= ts_key (ts l))%Z) /\
     lookup "song" (data env) = Some (JStr (track m0)) /\
     lookup "artist" (data env) = Some (JStr (artist m0)) /\
     lookup "first_listen_date" (data env) = Some (JStr (fmt_BdY (ts f))) /\
     lookup "first_listen_time" (data env) = Some (JStr (fmt_HM (ts f))) /\
     lookup "last_listen_date" (data env) = Some (JStr (fmt_BdY (ts l))) /\
     lookup "total_plays" (data env) = Some (JInt (Z.of_nat (List.length matches))) /\
     period_info env = Some ("First played: " ++ fmt_BdY (ts f))).
Proof.
  cbv zeta. unfold query_song_by_artist, bind, get_df, ret, lift. cbv zeta.
  destruct (filter (fun e => String.eqb (lower (track e)) (lower s) &&
                             String.eqb (lower (artist e)) (lower a)) st) as [|m0 rest] eqn:F.
  - eexists. split; [reflexivity |]. split; [reflexivity |]. left.
    split; [reflexivity |]. split; [reflexivity |]. eexists; reflexivity.
  - destruct (first_min_In (m0 :: rest)) as (f & Hf & Hfin); [discriminate |].
    destruct (first_max_In (m0 :: rest)) as (l & Hl & Hlin); [discriminate |].
    rewrite Hf, Hl.
    eexists. split; [reflexivity |]. split; [reflexivity |]. right.
    destruct (first_min_spec _ _ Hf) as (_ & _ & _ & Hmin & _).
    destruct (first_max_spec _ _ Hl) as (_ & _ & _ & Hmax & _).
    exists m0, rest, f, l. split; [reflexivity |]. split; [exact Hfin |]. split; [exact Hlin |].
    split; [intros x Hx; split; [now apply Hmin | now apply Hmax] |].
    repeat split.
Qed.

Lemma first_song_by_artist_earliest_witness :
  exists env, get_first_song_by_artist table_blue "All time" "Adele" = Some env /\
  exists ad, select_artist_rows table_blue "Adele" = Some ad /\
  (ad = [] /\ data env = [("error", JStr ("No songs found for " ++ "Adele"))]
   \/
   exists e0 rest pre e post, ad = e0 :: rest /\ ad = app pre (e :: post) /\
     (forall x, In x ad -> (ts_key (ts e) <= ts_key (ts x))%Z) /\
     (forall x, In x pre -> (ts_key (ts e) < ts_key (ts x))%Z) /\
     data env = [("artist", JStr (artist e0)); ("song", JStr (track e));
                 ("date", JStr (fmt_BdY (ts e))); ("time", JStr (fmt_HM (ts e)));
                 ("timestamp", JStr (isoformat (ts e)))]).
Proof.
  assert (H1 : exists env, get_first_song_by_artist table_blue "All time" "Adele" = Some env)
    by (eexists; reflexivity).
  destruct H1 as [env H1].
  exists env. exact (conj H1 (first_song_by_artist_earliest _ _ _ _ H1)).
Defined.

Lemma last_song_by_artist_latest_witness :
  exists env, get_last_song_by_artist table_blue "All time" "Adele" = Some env /\
  exists ad, select_artist_rows table_blue "Adele" = Some ad /\
  (ad = [] /\ data env = [("error", JStr ("No songs found for " ++ "Adele"))]
   \/
   exists e0 rest pre e post, ad = e0 :: rest /\ ad = app pre (e :: post) /\
     (forall x, In x ad -> (ts_key (ts x) <= ts_key (ts e))%Z) /\
     (forall x, In x pre -> (ts_key (ts x) < ts_key (ts e))%Z) /\
     data env = [("artist", JStr (artist e0)); ("song", JStr (track e));
                 ("date", JStr (fmt_BdY (ts e))); ("time", JStr (fmt_HM (ts e)));
                 ("timestamp", JStr (isoformat (ts e)))]).
Proof.
  assert (H1 : exists env, get_last_song_by_artist table_blue "All time" "Adele" = Some env)
    by (eexists; reflexivity).
  destruct H1 as [env H1].
  exists env. exact (conj H1 (last_song_by_artist_latest _ _ _ _ H1)).
Defined.

(** ** The time scope of a query: the other branches of [_filter_by_time] *)

Lemma find_month_ge (ql : string) (names : list string) (n m : Z) :
  find_month ql names n = Some m -> (n <= m)%Z.
Proof.
  revert n. induction names as [|nm r IH]; intros n; simpl; [discriminate |].
  destruct (contains nm ql).
  - intros H. injection H as <-. lia.
  - intros H. specialize (IH _ H). lia.
Qed.

Lemma find_day_range (q : string) (pats : list regex) (d : Z) :
  find_day q pats = Some d -> (1 <= d <= 31)%Z.
Proof.
  induction pats as [|pat r IH]; simpl; [discriminate |].
  destruct (find _ (findall pat q)) as [s|] eqn:E; [| exact IH].
  intros H. injection H as <-.
  apply find_some in E as [_ Hb]. apply andb_prop in Hb as [H1 H2].
  apply Z.leb_le in H1. apply Z.leb_le in H2. lia.
Qed.

Lemma find_all_false {A} (f : A -> bool) (l : list A) :
  (forall x, In x l -> f x = false) -> find f l = None.
Proof.
  induction l as [|x l IH]; intros H; simpl; [reflexivity |].
  rewrite (H x (or_introl eq_refl)). apply IH. intros y Hy. apply H. now right.
Qed.

(** The year detected in a query: the least year of the table whose
    digits the query contains. *)
Lemma detected_year_least (st : store) (q : string) (y : Z) :
  In y (map year st) ->
  contains (str_Z y) q = true ->
  (forall e, In e st -> (0 < year e)%Z) ->
  exists y0,
    find (fun y => contains (str_Z y) q) (sort_by Z.ltb (dedup Z.eqb (map year st))) = Some y0
    /\ (y0 =? 0)%Z = false /\ In y0 (map year st) /\ contains (str_Z y0) q = true
    /\ (forall y', In y' (map year st) -> contains (str_Z y') q = true -> (y0 <= y')%Z).
Proof.
  intros Hy Hc Hpos.
  destruct (find (fun y => contains (str_Z y) q) (sort_by Z.ltb (dedup Z.eqb (map year st))))
    as [y0|] eqn:E.
  - pose proof (find_some _ _ E) as [Hy0 Hc0].
    apply years_in_data_In in Hy0.
    exists y0. split; [reflexivity |]. split.
    + apply in_map_iff in Hy0 as (e & <- & He). apply Hpos in He. apply Z.eqb_neq. lia.
    + split; [exact Hy0 | split; [exact Hc0 |]].
      intros y' Hy' Hc'.
      apply (find_sorted_least _ _ y0 (sort_by_sorted _) E y'); [| exact Hc'].
      now apply years_in_data_In.
  - apply years_in_data_In in Hy.
    pose proof (find_none _ _ E y Hy) as Hf. simpl in Hf. congruence.
Qed.

(** A query naming a month and containing the digits of a year of the
    table (all years being positive), with no day number, is scoped to
    that month of the least such year [y0]: the view is the rows of year
    [y0] and that month, labelled "<Month> <y0>". *)
Theorem month_query_scope (st : store) (q : string) (y m : Z) :
  In y (map year st) ->
  contains (str_Z y) q = true ->
  (forall e, In e st -> (0 < year e)%Z) ->
  find_month (lower q) month_names 1 = Some m ->
  find_day q day_patterns = None ->
  exists y0,
    filter_by_time q st
      = Some ((filter (fun e => (year e =? y0)%Z && (mo (ts e) =? m)%Z) st,
               month_title m ++ " " ++ str_Z y0), st)
    /\ In y0 (map year st) /\ contains (str_Z y0) q = true
    /\ (forall y', In y' (map year st) -> contains (str_Z y') q = true -> (y0 <= y')%Z).
Proof.
  intros Hy Hc Hpos Hm Hd.
  destruct (detected_year_least st q y Hy Hc Hpos) as (y0 & E & Hnz & Hin & Hc0 & Hle).
  assert (Hmz : (m =? 0)%Z = false) by (apply find_month_ge in Hm; apply Z.eqb_neq; lia).
  exists y0. split; [| split; [exact Hin | split; [exact Hc0 | exact Hle]]].
  unfold filter_by_time, bind, get_df, ret, lift. cbv zeta.
  rewrite E, Hm, Hd, Hnz, Hmz. reflexivity.
Qed.

(** A query naming a month, a day number and the digits of a year of the
    table (all years being positive) is scoped to one calendar day of the
    least such year [y0]: the rows of that date, labelled
    "<Month> <d>, <y0>"; when the day does not exist in that month the
    call raises. *)
Theorem day_query_scope (st : store) (q : string) (y m d : Z) :
  In y (map year st) ->
  contains (str_Z y) q = true ->
  (forall e, In e st -> (0 < year e)%Z) ->
  find_month (lower q) month_names 1 = Some m ->
  find_day q day_patterns = Some d ->
  exists y0,
    (In y0 (map year st) /\ contains (str_Z y0) q = true
     /\ forall y', In y' (map year st) -> contains (str_Z y') q = true -> (y0 <= y')%Z) /\
    filter_by_time q st
      = if valid_date y0 m d
        then Some ((filter (fun e => (date e =? days_from_civil y0 m d)%Z) st,
                    month_title m ++ " " ++ str_Z d ++ ", " ++ str_Z y0), st)
        else None.
Proof.
  intros Hy Hc Hpos Hm Hd.
  destruct (detected_year_least st q y Hy Hc Hpos) as (y0 & E & Hnz & Hin & Hc0 & Hle).
  assert (Hmz : (m =? 0)%Z = false) by (apply find_month_ge in Hm; apply Z.eqb_neq; lia).
  assert (Hdz : (d =? 0)%Z = false) by (apply find_day_range in Hd; apply Z.eqb_neq; lia).
  exists y0. split; [split; [exact Hin | split; [exact Hc0 | exact Hle]] |].
  unfold filter_by_time, bind, get_df, ret, lift. cbv zeta.
  rewrite E, Hm, Hd, Hnz, Hmz, Hdz. simpl. destruct (valid_date y0 m d); reflexivity.
Qed.

(** A query that contains the digits of no year of the table and neither
    "recent" nor "lately" (ignoring case) is not scoped at all: whatever
    month or day it names, the view is the whole table, labelled
    "All time". *)
Theorem no_year_query_all_time (st : store) (q : string) :
  (forall e, In e st -> contains (str_Z (year e)) q = false) ->
  contains "recent" (lower q) = false ->
  contains "lately" (lower q) = false ->
  filter_by_time q st = Some ((st, "All time"), st).
Proof.
  intros Hy Hr Hl.
  assert (E : find (fun y => contains (str_Z y) q) (sort_by Z.ltb (dedup Z.eqb (map year st))) = None).
  { apply find_all_false. intros z Hz. apply years_in_data_In in Hz.
    apply in_map_iff in Hz as (e & <- & He). now apply Hy. }
  unfold filter_by_time, bind, get_df, ret, lift. cbv zeta.
  rewrite E, Hr, Hl. reflexivity.
Qed.

(** A query that contains the digits of no year of the table but says
    "recent" or "lately" (ignoring case), over a non-empty table, is
    scoped to the last 30 days: the rows dated at most 30 days before the
    latest date of the table, labelled "Last 30 days". *)
Theorem recent_query_last_30_days (st : store) (q : string) :
  st <> [] ->
  (forall e, In e st -> contains (str_Z (year e)) q = false) ->
  contains "recent" (lower q) || contains "lately" (lower q) = true ->
  exists mx, In mx st /\ (forall e, In e st -> (date e <= date mx)%Z) /\
    filter_by_time q st
      = Some ((filter (fun e => (date mx - 30 <=? date e)%Z) st, "Last 30 days"), st).
Proof.
  intros Hne Hy Hr.
  assert (E : find (fun y => contains (str_Z y) q) (sort_by Z.ltb (dedup Z.eqb (map year st))) = None).
  { apply find_all_false. intros z Hz. apply years_in_data_In in Hz.
    apply in_map_iff in Hz as (e & <- & He). now apply Hy. }
  destruct (max_date_row_some st Hne) as [mx Hmx].
  destruct (max_date_row_spec st mx Hmx) as [Hin Hmax].
  exists mx. split; [exact Hin | split; [exact Hmax |]].
  unfold filter_by_time, bind, get_df, ret, lift. cbv zeta.
  rewrite E, Hr, Hmx. reflexivity.
Qed.

Lemma month_query_scope_witness :
  In 2021%Z (map year table_blue) /\
  exists y0,
    filter_by_time "favorite song in june 2021" table_blue
      = Some ((filter (fun e => (year e =? y0)%Z && (mo (ts e) =? 6)%Z) table_blue,
               month_title 6 ++ " " ++ str_Z y0), table_blue)
    /\ In y0 (map year table_blue) /\ contains (str_Z y0) "favorite song in june 2021" = true
    /\ (forall y', In y' (map year table_blue) ->
          contains (str_Z y') "favorite song in june 2021" = true -> (y0 <= y')%Z).
Proof.
  assert (H1 : In 2021%Z (map year table_blue)) by (simpl; auto).
  assert (H2 : contains (str_Z 2021) "favorite song in june 2021" = true)
    by (vm_compute; reflexivity).
  assert (H3 : forall e, In e table_blue -> (0 < year e)%Z).
  { intros e He. simpl in He. destruct He as [<-|[<-|[<-|[]]]]; vm_compute; reflexivity. }
  assert (H4 : find_month (lower "favorite song in june 2021") month_names 1 = Some 6%Z)
    by (vm_compute; reflexivity).
  assert (H5 : find_day "favorite song in june 2021" day_patterns = None)
    by (vm_compute; reflexivity).
  exact (conj H1 (month_query_scope table_blue _ 2021 6 H1 H2 H3 H4 H5)).
Defined.

Lemma day_query_scope_witness :
  In 2021%Z (map year table_blue) /\
  exists y0,
    (In y0 (map year table_blue) /\ contains (str_Z y0) "top songs on March 10 2021" = true
     /\ forall y', In y' (map year table_blue) ->
          contains (str_Z y') "top songs on March 10 2021" = true -> (y0 <= y')%Z) /\
    filter_by_time "top songs on March 10 2021" table_blue
      = if valid_date y0 3 10
        then Some ((filter (fun e => (date e =? days_from_civil y0 3 10)%Z) table_blue,
                    month_title 3 ++ " " ++ str_Z 10 ++ ", " ++ str_Z y0), table_blue)
        else None.
Proof.
  assert (H1 : In 2021%Z (map year table_blue)) by (simpl; auto).
  assert (H2 : contains (str_Z 2021) "top songs on March 10 2021" = true)
    by (vm_compute; reflexivity).
  assert (H3 : forall e, In e table_blue -> (0 < year e)%Z).
  { intros e He. simpl in He. destruct He as [<-|[<-|[<-|[]]]]; vm_compute; reflexivity. }
  assert (H4 : find_month (lower "top songs on March 10 2021") month_names 1 = Some 3%Z)
    by (vm_compute; reflexivity).
  assert (H5 : find_day "top songs on March 10 2021" day_patterns = Some 10%Z)
    by (vm_compute; reflexivity).
  exact (conj H1 (day_query_scope table_blue _ 2021 3 10 H1 H2 H3 H4 H5)).
Defined.

Lemma no_year_query_all_time_witness :
  (forall e, In e table_blue -> contains (str_Z (year e)) "favorite song in March" = false) /\
  filter_by_time "favorite song in March" table_blue = Some ((table_blue, "All time"), table_blue).
Proof.
  assert (H1 : forall e, In e table_blue -> contains (str_Z (year e)) "favorite song in March" = false).
  { intros e He. simpl in He. destruct He as [<-|[<-|[<-|[]]]]; vm_compute; reflexivity. }
  assert (H2 : contains "recent" (lower "favorite song in March") = false) by (vm_compute; reflexivity).
  assert (H3 : contains "lately" (lower "favorite song in March") = false) by (vm_compute; reflexivity).
  exact (conj H1 (no_year_query_all_time table_blue _ H1 H2 H3)).
Defined.

Lemma recent_query_last_30_days_witness :
  table_blue <> [] /\
  exists mx, In mx table_blue /\ (forall e, In e table_blue -> (date e <= date mx)%Z) /\
    filter_by_time "what have I played lately" table_blue
      = Some ((filter (fun e => (date mx - 30 <=? date e)%Z) table_blue, "Last 30 days"), table_blue).
Proof.
  assert (H1 : table_blue <> []) by discriminate.
  assert (H2 : forall e, In e table_blue ->
                 contains (str_Z (year e)) "what have I played lately" = false).
  { intros e He. simpl in He. destruct He as [<-|[<-|[<-|[]]]]; vm_compute; reflexivity. }
  assert (H3 : contains "recent" (lower "what have I played lately")
               || contains "lately" (lower "what have I played lately") = true)
    by (vm_compute; reflexivity).
  exact (conj H1 (recent_query_last_30_days table_blue _ H1 H2 H3)).
Defined.

(** ** A day's listening: [_get_daily_listening] *)

Section KeySort.
Context {A : Type} (key : A -> Z).

Lemma insert_by_key_sorted (a : A) (l : list A) :
  StronglySorted (fun x y => (key x <= key y)%Z) l ->
  StronglySorted (fun x y => (key x <= key y)%Z) (insert_by (fun x y => (key x <? key y)%Z) a l).
Proof.
  induction l as [|y l IH]; intros H; simpl.
  - constructor; constructor.
  - inversion H as [|? ? Hl Hf]; subst.
    destruct (Z.ltb_spec (key a) (key y)) as [Hay|Hya].
    + constructor; [exact H |]. constructor; [lia |].
      eapply Forall_impl; [| exact Hf]. intros z Hz; simpl in Hz; lia.
    + constructor; [now apply IH |].
      apply Forall_forall. intros z Hz. apply insert_by_In in Hz as [->|Hz]; [lia |].
      rewrite Forall_forall in Hf. now apply Hf.
Qed.

Lemma sort_by_key_sorted (l : list A) :
  StronglySorted (fun x y => (key x <= key y)%Z) (sort_by (fun x y => (key x <? key y)%Z) l).
Proof.
  unfold sort_by. induction l as [|a l IH]; simpl; [constructor | now apply insert_by_key_sorted].
Qed.

End KeySort.

Lemma value_counts_cons (l : list string) (x : string) :
  In x l -> exists k c r, value_counts l = (k, c) :: r.
Proof.
  intros Hx. destruct (value_counts_exact l) as (_ & _ & Hall).
  destruct (Hall x Hx) as [c Hc].
  destruct (value_counts l) as [|[k c'] r]; [destruct Hc | now exists k, c', r].
Qed.

(** The listening of a view, whenever the call returns.  An empty view
    gives only an error.  A view of one calendar date gives its number of
    rows, its first twenty rows in timestamp order (time, song and artist
    of a time-sorted arrangement of the rows), and an artist and a song of
    the day with the most rows.  A view of several dates gives a period
    summary whose play count is its number of rows. *)
Theorem daily_listening_shape (gc : bool) (v : list event) (p : string) (env : envelope) :
  get_daily_listening gc v p = Some env ->
  ((v = [] /\ data env = [("error", JStr ("No listening data found for " ++ p))])
   \/
   (v <> [] /\ List.length (nodup Z.eq_dec (map date v)) = 1%nat /\
    analysis_type env = "daily_listening" /\
    lookup "total_tracks" (data env) = Some (JInt (Z.of_nat (List.length v))) /\
    (exists ws, Permutation ws v /\
       StronglySorted (fun a b => (ts_key (ts a) <= ts_key (ts b))%Z) ws /\
       lookup "tracks_chronological" (data env)
         = Some (JList (firstn 20 (map (fun e => JObj [("time", JStr (fmt_HM (ts e)));
                                                       ("song", JStr (track e));
                                                       ("artist", JStr (artist e))]) ws)))) /\
    (exists a, lookup "top_artist_that_day" (data env) = Some (JStr a) /\ In a (map artist v) /\
       forall e, In e v ->
         (count_occ string_dec (map artist v) (artist e) <= count_occ string_dec (map artist v) a)%nat) /\
    (exists s, lookup "most_played_song" (data env) = Some (JStr s) /\ In s (map track v) /\
       forall e, In e v ->
         (count_occ string_dec (map track v) (track e) <= count_occ string_dec (map track v) s)%nat))
   \/
   (v <> [] /\ List.length (nodup Z.eq_dec (map date v)) <> 1%nat /\
    analysis_type env = "period_summary" /\
    exists st, lookup "stats" (data env) = Some (JObj st) /\
      lookup "total_plays" st = Some (JInt (Z.of_nat (List.length v))))).
Proof.
  unfold get_daily_listening.
  destruct v as [|e0 r].
  - intros H. injection H as <-. left. split; reflexivity.
  - assert (Hne : e0 :: r <> []) by discriminate.
    destruct (Nat.eqb_spec (List.length (dedup Z.eqb (map date (e0 :: r)))) 1) as [H1|H1].
    + destruct (value_counts_cons (map artist (e0 :: r)) (artist e0)) as (ka & ca & ra & Ea).
      { now left. }
      destruct (value_counts_cons (map track (e0 :: r)) (track e0)) as (ks & cs & rs & Es).
      { now left. }
      rewrite Ea, Es. intros H. injection H as <-. right. left.
      split; [exact Hne |]. split; [now rewrite <- dedup_length_nodup |].
      split; [reflexivity |]. split; [reflexivity |]. split; [| split].
      * exists (sort_by (fun a b => (ts_key (ts a) <? ts_key (ts b))%Z) (e0 :: r)).
        split; [apply sort_by_perm |].
        split; [apply (sort_by_key_sorted (fun a => ts_key (ts a))) |].
        cbn [data lookup find fst snd String.eqb Ascii.eqb Bool.eqb andb option_map].
        reflexivity.
      * destruct (value_counts_top _ _ _ _ Ea) as (Hin & Hc & Hmax).
        exists ka. split; [reflexivity |]. split; [exact Hin |].
        intros e He. specialize (Hmax (artist e) (in_map artist _ e He)). lia.
      * destruct (value_counts_top _ _ _ _ Es) as (Hin & Hc & Hmax).
        exists ks. split; [reflexivity |]. split; [exact Hin |].
        intros e He. specialize (Hmax (track e) (in_map track _ e He)). lia.
    + destruct (extract_top_genres gc (e0 :: r) 5) as [tg|]; [| discriminate].
      intros H. injection H as <-. right. right.
      split; [exact Hne |]. split; [now rewrite <- dedup_length_nodup |].
      split; [reflexivity |]. eexists. split; reflexivity.
Qed.

Lemma daily_listening_shape_witness :
  exists env st, get_daily_listening true table_blue "All time" = Some env /\
    lookup "stats" (data env) = Some (JObj st) /\
    lookup "total_plays" st = Some (JInt 3%Z).
Proof.
  destruct (get_daily_listening true table_blue "All time") as [env|] eqn:E;
    [| vm_compute in E; discriminate].
  destruct (daily_listening_shape true table_blue "All time" env E)
    as [(Hv & _) | [(_ & Hd & _) | (_ & _ & _ & st & Hs & Ht)]].
  - discriminate.
  - vm_compute in Hd. discriminate.
  - exists env, st. split; [reflexivity |]. split; [exact Hs | exact Ht].
Defined.

(** ** Artist name variations: [_generate_artist_name_variations] *)

Lemma split_ws_aux_nil (l cur : list ascii) :
  split_ws_aux l cur = [] <-> cur = [] /\ forallb is_space l = true.
Proof.
  revert cur. induction l as [|c r IH]; intros cur; simpl.
  - destruct cur; split; intros H; try discriminate; try tauto.
    destruct H as [H _]; discriminate.
  - destruct (is_space c); simpl.
    + destruct cur as [|x cur'].
      * rewrite IH. tauto.
      * split; [discriminate | intros [H _]; discriminate].
    + rewrite IH. split; [intros [H _]; discriminate | intros [_ H]; discriminate].
Qed.

Lemma split_ws_aux_words (l cur : list ascii) (w : string) :
  In w (split_ws_aux l cur) -> w <> EmptyString.
Proof.
  revert cur. induction l as [|c r IH]; intros cur; simpl.
  - destruct cur as [|x cur']; [intros [] | intros [<-|[]]].
    simpl. destruct (rev cur'); simpl; discriminate.
  - destruct (is_space c).
    + destruct cur as [|x cur']; [apply IH |].
      intros [<-|Hw]; [| now apply (IH [])].
      simpl. destruct (rev cur'); simpl; discriminate.
    + apply IH.
Qed.

(** The variations of an artist name: the call raises exactly when the
    name is blank (no character but whitespace); otherwise it gives three
    variations for a one-word name and four for a longer one. *)
Theorem artist_name_variations_count (n : string) :
  (generate_artist_name_variations n = None <-> forallb is_space (list_ascii_of_string n) = true) /\
  (forall vs, generate_artist_name_variations n = Some vs ->
     List.length vs = (if (List.length (split_ws n) =? 1)%nat then 3 else 4)%nat).
Proof.
  assert (Hw : forall w, In w (split_ws n) -> w <> EmptyString) by apply split_ws_aux_words.
  assert (Hn : split_ws n = [] <-> forallb is_space (list_ascii_of_string n) = true).
  { unfold split_ws. rewrite split_ws_aux_nil. tauto. }
  unfold generate_artist_name_variations.
  destruct (split_ws n) as [|w0 [|w1 rest]] eqn:E.
  - split; [tauto | discriminate].
  - split; [split; [discriminate | intros H; apply Hn in H; discriminate] |].
    intros vs H. injection H as <-. reflexivity.
  - destruct w0 as [|c0 w0'].
    + exfalso. apply (Hw EmptyString); [now left | reflexivity].
    + split; [split; [discriminate | intros H; apply Hn in H; discriminate] |].
      intros vs H. injection H as <-. reflexivity.
Qed.

(** ** An artist's songs: [_get_artist_songs] *)

(** The songs of an artist: whenever the call returns, it has selected
    the artist's rows [ad] ([select_artist_rows]); with none it reports
    only an error; otherwise the play count is the number of rows of [ad],
    the artist shown is the one of its first row, and its top-songs list
    holds at most ten distinct tracks of [ad], each with its exact number
    of rows there, no track left out having more rows than one listed. *)
Theorem artist_songs_top_list (v : list event) (p a : string) (env : envelope) :
  get_artist_songs v p a = Some env ->
  exists ad, select_artist_rows v a = Some ad /\
  ((ad = [] /\ data env = [("error", JStr ("No songs found for " ++ a ++ " in " ++ p))])
   \/
   exists e0 rest kvs, ad = e0 :: rest /\
     lookup "artist" (data env) = Some (JStr (artist e0)) /\
     lookup "total_plays" (data env) = Some (JInt (Z.of_nat (List.length ad))) /\
     lookup "top_songs" (data env) = Some (JObj kvs) /\
     (List.length kvs <= 10)%nat /\ NoDup (map fst kvs) /\
     (forall k x, In (k, x) kvs -> x = JInt (Z.of_nat (count_occ string_dec (map track ad) k))) /\
     (forall k y, In k (map fst kvs) -> In y (map track ad) -> ~ In y (map fst kvs) ->
        (count_occ string_dec (map track ad) y <= count_occ string_dec (map track ad) k)%nat)).
Proof.
  unfold get_artist_songs.
  destruct (select_artist_rows v a) as [ad|]; [| discriminate].
  intros H. exists ad. split; [reflexivity |].
  destruct ad as [|e0 rest].
  - injection H as <-. left. split; reflexivity.
  - injection H as <-. right.
    destruct (counts_dict 10 (value_counts (map track (e0 :: rest)))) as [| | |kvs|] eqn:Ed;
      try (unfold counts_dict in Ed; discriminate).
    exists e0, rest, kvs. split; [reflexivity |].
    split; [reflexivity |]. split; [reflexivity |]. split; [lk; exact (f_equal Some Ed) |].
    exact (counts_dict_top 10 _ kvs Ed).
Qed.

Lemma artist_songs_top_list_witness :
  exists env, get_artist_songs table_blue "All time" "Adele" = Some env /\
  exists ad, select_artist_rows table_blue "Adele" = Some ad /\
  ((ad = [] /\ data env = [("error", JStr ("No songs found for " ++ "Adele" ++ " in " ++ "All time"))])
   \/
   exists e0 rest kvs, ad = e0 :: rest /\
     lookup "artist" (data env) = Some (JStr (artist e0)) /\
     lookup "total_plays" (data env) = Some (JInt (Z.of_nat (List.length ad))) /\
     lookup "top_songs" (data env) = Some (JObj kvs) /\
     (List.length kvs <= 10)%nat /\ NoDup (map fst kvs) /\
     (forall k x, In (k, x) kvs -> x = JInt (Z.of_nat (count_occ string_dec (map track ad) k))) /\
     (forall k y, In k (map fst kvs) -> In y (map track ad) -> ~ In y (map fst kvs) ->
        (count_occ string_dec (map track ad) y <= count_occ string_dec (map track ad) k)%nat)).
Proof.
  assert (H1 : exists env, get_artist_songs table_blue "All time" "Adele" = Some env)
    by (eexists; reflexivity).
  destruct H1 as [env H1].
  exists env. exact (conj H1 (artist_songs_top_list _ _ _ _ H1)).
Defined.
